(** * Bottles: the dependency manager (src/backend/dependency.py)

    A shallow embedding of [DependencyManager]: manifest resolution
    ([get_dependency]), the step executor ([async_install]) and the ten step
    handlers, followed by the properties of the executor and of the ledger
    fields [Installed_Dependencies] and [Uninstallers] of a bottle.

    Python's effects are made explicit.  A run threads a state made of the
    outside world, the bottle configuration (the dict the caller shares with
    the manager) and the trace of the calls issued so far; a computation ends
    by returning a value or by raising an exception. *)

From Stdlib Require Import String Ascii List Bool Arith Lia.
From stdpp Require Import gmap strings.
Import ListNotations.

Open Scope list_scope.
Open Scope string_scope.

(** ** Python strings *)

Module Py.

(** [f"{x}"] and ["%s" % x] of a value that may be [None]. *)
Definition fmt (o : option string) : string :=
  match o with
  | Some s => s
  | None => "None"
  end.

(** Truth value of a string or [None]: [None] and [""] are falsy. *)
Definition truthy (o : option string) : bool :=
  match o with
  | Some s => negb (s =? "")
  | None => false
  end.

(** [s.startswith(p)]. *)
Definition startswith (p s : string) : bool := String.prefix p s.

(** [sub in s]. *)
Fixpoint contains (sub s : string) : bool :=
  String.prefix sub s ||
  match s with
  | EmptyString => false
  | String _ r => contains sub r
  end.

Fixpoint replace_aux (old new : string) (skip : nat) (s : string) : string :=
  match s with
  | EmptyString => EmptyString
  | String c r =>
      match skip with
      | S k => replace_aux old new k r
      | O =>
          if String.prefix old s
          then new ++ replace_aux old new (String.length old - 1) r
          else String c (replace_aux old new 0 r)
      end
  end.

(** [s.replace(old, new)] for a non-empty [old]: every occurrence, scanning
    from the left, occurrences not overlapping. *)
Definition replace (old new s : string) : string := replace_aux old new 0 s.

(** [s.rfind(c)] for a one-character [c]; [None] stands for [-1]. *)
Fixpoint rfind (c : ascii) (s : string) : option nat :=
  match s with
  | EmptyString => None
  | String a r =>
      match rfind c r with
      | Some i => Some (S i)
      | None => if Ascii.eqb a c then Some 0 else None
      end
  end.

(** [os.path.basename(p)]: what follows the last slash. *)
Definition basename (p : string) : string :=
  match rfind "/" p with
  | Some i => String.substring (S i) (String.length p - S i) p
  | None => p
  end.

Fixpoint all_dots (s : string) : bool :=
  match s with
  | EmptyString => true
  | String c r => Ascii.eqb c "." && all_dots r
  end.

(** [os.path.splitext(p)[0]]: [p] cut at its last dot, when that dot lies
    in the last path component and is not one of its leading dots. *)
Definition splitext_root (p : string) : string :=
  match rfind "." p with
  | None => p
  | Some dotIndex =>
      let filenameIndex :=
        match rfind "/" p with Some sepIndex => S sepIndex | None => 0 end in
      if (filenameIndex <=? dotIndex)%nat
      then
        if all_dots (String.substring filenameIndex (dotIndex - filenameIndex) p)
        then p
        else String.substring 0 dotIndex p
      else p
  end.

(** A string stands for the UTF-8 encoding of Python's [str]: a character is
    one byte or a lead byte and its continuation bytes. *)
Definition utf8_length (c : ascii) : nat :=
  let n := nat_of_ascii c in
  if (n <? 192)%nat then 1
  else if (n <? 224)%nat then 2
  else if (n <? 240)%nat then 3
  else 4.

(** The characters of a string, [cur] holding the bytes read of a character
    that wants [need] more. *)
Fixpoint chars_aux (cur : string) (need : nat) (s : string) : list string :=
  match s with
  | EmptyString =>
      match cur with
      | EmptyString => []
      | _ => [cur]
      end
  | String c r =>
      match need with
      | S O => (cur ++ String c EmptyString) :: chars_aux EmptyString 0 r
      | S k => chars_aux (cur ++ String c EmptyString) k r
      | O =>
          match utf8_length c with
          | S (S k) => chars_aux (String c EmptyString) (S k) r
          | _ => String c EmptyString :: chars_aux EmptyString 0 r
          end
      end
  end.

Definition chars (s : string) : list string := chars_aux EmptyString 0 s.

Definition of_bytes (l : list nat) : string :=
  string_of_list_ascii (map ascii_of_nat l).

(** The characters for which [str.isspace()] holds, those that
    [str.strip()] removes: U+0009 to U+000D, U+001C to U+0020, U+0085,
    U+00A0, U+1680, U+2000 to U+200A, U+2028, U+2029, U+202F, U+205F and
    U+3000. *)
Definition whitespace : list string :=
  map of_bytes
    [[9]; [10]; [11]; [12]; [13]; [28]; [29]; [30]; [31]; [32];
     [194; 133]; [194; 160]; [225; 154; 128];
     [226; 128; 128]; [226; 128; 129]; [226; 128; 130]; [226; 128; 131];
     [226; 128; 132]; [226; 128; 133]; [226; 128; 134]; [226; 128; 135];
     [226; 128; 136]; [226; 128; 137]; [226; 128; 138];
     [226; 128; 168]; [226; 128; 169]; [226; 128; 175];
     [226; 129; 159]; [227; 128; 128]]%nat.

(** [ch.isspace()] of a character. *)
Definition isspace (ch : string) : bool :=
  existsb (String.eqb ch) whitespace.

Fixpoint lstrip (l : list string) : list string :=
  match l with
  | [] => []
  | ch :: r => if isspace ch then lstrip r else l
  end.

Fixpoint rstrip (l : list string) : list string :=
  match l with
  | [] => []
  | ch :: r =>
      match rstrip r with
      | [] => if isspace ch then [] else [ch]
      | r' => ch :: r'
      end
  end.

(** [s.strip()]: [s] without the white space at its two ends. *)
Definition strip (s : string) : string :=
  String.concat EmptyString (rstrip (lstrip (chars s))).

End Py.

(** ** Data model *)

(** The value of a step's [environment] key, handed to the runner as it is. *)
Definition PyDict : Type := list (string * string).

(** One entry of a manifest's [Steps]: a dict read with [step["k"]] (which
    raises [KeyError] on a missing key) and [step.get("k")] (which gives
    [None]).  [action] is read first, by every dispatch test. *)
Record Step : Type := mkStep {
  action : string;
  url : option string;
  file_name : option string;
  rename : option string;
  file_checksum : option string;
  arguments : option string;
  environment : option PyDict;
  dlls : option (list string);
  fonts : option (list string);
  dest : option string;
  dll : option string;
  type_ : option string;
  key : option string;
  value : option string;
  data : option string;
  name : option string;
  file : option string
}.

(** A manifest as the repository serves it, taken at its schema: a mapping
    with the list [Steps] and, when declared, an [Uninstaller].  Such a dict
    is never empty, hence truthy. *)
Record Manifest : Type := mkManifest {
  Steps : list Step;
  Uninstaller : option string
}.

(** The bottle configuration, [BottleConfig] in the source: the keys that
    [async_install] and its handlers read or write.  It is one dict, shared
    by the caller and the manager; its two ledger keys,
    [Installed_Dependencies] and [Uninstallers], are written through
    [update_config] and by nothing else. *)
Record BottleConfig : Type := mkBottleConfig {
  Name : string;
  Versioning : bool;
  Installed_Dependencies : list string;
  Uninstallers : gmap string string
}.

(** The [dependency] argument: [dependency[0]] and
    [dependency[1]["Category"]]. *)
Record Dependency : Type := mkDependency {
  dep_name : string;
  dep_Category : string
}.

(** The widget argument is a handle or [None]. *)
Variant Widget : Type := GtkWidget.

Definition NO_UNINSTALLER : string := "NO_UNINSTALLER".

(** What [get_dependency] returns: [Union[str, dict, bool]], and [None] when
    the served document is empty. *)
Inductive DepResult : Type :=
| RFalse
| RNone
| RPlain (text : string)
| RManifest (m : Manifest).

(** [not manifest] in [async_install]. *)
Definition not_found (r : DepResult) : bool :=
  match r with
  | RFalse | RNone => true
  | RPlain text => text =? ""
  | RManifest _ => false
  end.

(** ** Exceptions and outcomes *)

Inductive Exn : Type :=
| FileNotFoundError
| KeyError (k : string)
| TypeError
| AttributeError
| SystemExit
| OtherError (what : string).

Definition is_FileNotFoundError (e : Exn) : bool :=
  match e with FileNotFoundError => true | _ => false end.

Inductive Outcome (A : Type) : Type :=
| Ret (a : A)
| Raise (e : Exn).
Arguments Ret {A} a.
Arguments Raise {A} e.

(** ** Calls that leave the manager *)

Variant Callback : Type :=
| WidgetSetInstalled (installed : bool)
| WidgetSetErr
| DownloadEntryRemove.

(** [reg_add]'s [keyType] argument, passed by [set_register_key] only. *)
Variant KeyType : Type :=
| KeyTypeDefault
| KeyTypeGiven (t : option string).

Inductive Event : Type :=
| EvCreateBottleState (comment : string)
| EvNewDownload (file_name : string)
| EvLogInfo (msg : string)
| EvLogError (msg : string)
| EvCheckConnection
| EvUrlopen (u : string)
| EvDownload (download_url file_ rename_ checksum : option string)
| EvRunExecutable (file_path : string) (arguments_ : option string)
                  (environment_ : option PyDict)
| EvRunCommand (command : string)
| EvRunUninstaller (uuid : string)
| EvValidateUrl (u : string)
| EvCabExtract (path : string) (name_ : option string)
| EvRemove (path : string)
| EvRmtree (path : string)
| EvMakedirs (path : string)
| EvExtractArchive (archive outdir : string)
| EvCopyfile (src dst : string)
| EvRegAdd (key_ value_ data_ : option string) (keyType : KeyType)
| EvUpdateConfig (key_ : string) (scope : string)
| EvIdleAdd (cb : Callback)
| EvBtnInstallSetSensitive (b : bool).

(** Constants of [globals.py]. *)
Record Globals : Type := mkGlobals {
  Paths_temp : string;
  Paths_bottles : string;
  BottlesRepositories_dependencies : string
}.

(** The collaborators, over a world [W] they read and change.  Those of the
    first group belong to Bottles (manager, runner, download and versioning
    managers, utils) and live outside this module; those of the second are
    Python's library.  An effectful one returns or raises, and leaves a new
    world. *)
Record Collaborators (W : Type) : Type := mkCollaborators {
  check_connection : W -> bool * W;
  async_create_bottle_state : BottleConfig -> string -> W -> Outcome unit * W;
  new_download : string -> W -> Outcome unit * W;
  download :
    option string -> option string -> option string -> option string ->
    W -> Outcome bool * W;
  run_executable :
    BottleConfig -> string -> option string -> option PyDict ->
    W -> Outcome unit * W;
  run_command : BottleConfig -> string -> W -> Outcome string * W;
  run_uninstaller : BottleConfig -> string -> W -> Outcome unit * W;
  get_bottle_path : BottleConfig -> W -> string;
  reg_add :
    BottleConfig -> option string -> option string -> option string ->
    KeyType -> W -> Outcome unit * W;
  validate_url : string -> W -> Outcome bool * W;
  CabExtract_run : string -> option string -> W -> Outcome bool * W;

  urlopen_read : string -> W -> Outcome string * W;
  decode_utf8 : string -> Outcome string;
  yaml_safe_load : string -> Outcome (option Manifest);
  os_remove : string -> W -> Outcome unit * W;
  os_path_exists : string -> W -> bool;
  shutil_rmtree : string -> W -> Outcome unit * W;
  os_makedirs : string -> W -> Outcome unit * W;
  patoolib_extract_archive : string -> string -> W -> Outcome unit * W;
  shutil_copyfile : string -> string -> W -> Outcome unit * W;
  glob : string -> W -> list string
}.
Arguments check_connection {W} _ _.
Arguments async_create_bottle_state {W} _ _ _ _.
Arguments new_download {W} _ _ _.
Arguments download {W} _ _ _ _ _ _.
Arguments run_executable {W} _ _ _ _ _ _.
Arguments run_command {W} _ _ _ _.
Arguments run_uninstaller {W} _ _ _ _.
Arguments get_bottle_path {W} _ _ _.
Arguments reg_add {W} _ _ _ _ _ _ _.
Arguments validate_url {W} _ _ _.
Arguments CabExtract_run {W} _ _ _ _.
Arguments urlopen_read {W} _ _ _.
Arguments decode_utf8 {W} _ _.
Arguments yaml_safe_load {W} _ _.
Arguments os_remove {W} _ _ _.
Arguments os_path_exists {W} _ _ _.
Arguments shutil_rmtree {W} _ _ _.
Arguments os_makedirs {W} _ _ _.
Arguments patoolib_extract_archive {W} _ _ _ _.
Arguments shutil_copyfile {W} _ _ _ _.
Arguments glob {W} _ _ _.

(** ** The state of a run, and computations over it *)

Record State (W : Type) : Type := mkState {
  world : W;
  config : BottleConfig;
  trace : list Event
}.
Arguments mkState {W} _ _ _.
Arguments world {W} _.
Arguments config {W} _.
Arguments trace {W} _.

Definition M (W A : Type) : Type := State W -> Outcome A * State W.

Section Monad.
Context {W : Type}.

Definition ret {A} (a : A) : M W A := fun s => (Ret a, s).

Definition raise {A} (e : Exn) : M W A := fun s => (Raise e, s).

Definition bind {A B} (m : M W A) (k : A -> M W B) : M W B :=
  fun s =>
    match m s with
    | (Ret a, s') => k a s'
    | (Raise e, s') => (Raise e, s')
    end.

(** [try: body except E: handler], [catches] telling which exceptions [E]
    covers. *)
Definition try_except {A} (body : M W A) (catches : Exn -> bool)
    (handler : M W A) : M W A :=
  fun s =>
    match body s with
    | (Ret a, s') => (Ret a, s')
    | (Raise e, s') => if catches e then handler s' else (Raise e, s')
    end.

(** A call that only leaves a mark: logging, the GLib main loop, a widget. *)
Definition emit (e : Event) : M W unit :=
  fun s => (Ret tt, mkState (world s) (config s) (trace s ++ [e])%list).

(** A call to an effectful collaborator. *)
Definition call {R} (e : Event) (f : W -> Outcome R * W) : M W R :=
  fun s =>
    let (r, w) := f (world s) in
    (r, mkState w (config s) (trace s ++ [e])%list).

(** A look at the world. *)
Definition query {R} (f : W -> R) : M W R :=
  fun s => (Ret (f (world s)), s).

(** The shared configuration dict. *)
Definition get_config : M W BottleConfig :=
  fun s => (Ret (config s), s).

Definition put_config (c : BottleConfig) : M W unit :=
  fun s => (Ret tt, mkState (world s) c (trace s)).

(** [d["k"]]. *)
Definition subscript {A} (k : string) (field : option A) : M W A :=
  match field with
  | Some v => ret v
  | None => raise (KeyError k)
  end.

(** A value that must not be [None] where it is used. *)
Definition not_None {A} (field : option A) : M W A :=
  match field with
  | Some v => ret v
  | None => raise TypeError
  end.

End Monad.

Declare Scope py_scope.
Delimit Scope py_scope with py.
Notation "x <- c1 ;; c2" := (bind c1 (fun x => c2))
  (at level 100, c1 at next level, right associativity) : py_scope.
Notation "c1 ;;; c2" := (bind c1 (fun _ => c2))
  (at level 100, right associativity) : py_scope.
Open Scope py_scope.

(** ** The dependency manager *)

Section DependencyManager.
Context {W : Type}.
Variable G : Globals.
Variable C : Collaborators W.

(** [for x in xs: body], [acc] standing for the local variables the body
    assigns. *)
Fixpoint for_in {A S} (xs : list A) (acc : S) (body : A -> S -> M W S)
    : M W S :=
  match xs with
  | [] => ret acc
  | x :: rest => acc' <- body x acc ;; for_in rest acc' body
  end.

(** [if widget is not None: body]. *)
Definition if_widget (widget : option Widget) (body : M W unit) : M W unit :=
  match widget with
  | Some _ => body
  | None => ret tt
  end.

(** [step.get("rename")] if it is truthy, else [step.get("file_name")]. *)
Definition rename_or_file_name (step : Step) : option string :=
  if Py.truthy (rename step) then rename step else file_name step.

Definition call_download (step : Step) : M W bool :=
  call (EvDownload (url step) (file_name step) (rename step)
          (file_checksum step))
       (download C (url step) (file_name step) (rename step)
          (file_checksum step)).

Definition call_CabExtract (path : string) (name_ : option string)
    : M W bool :=
  call (EvCabExtract path name_) (CabExtract_run C path name_).

Definition call_copyfile (src dst : string) : M W unit :=
  call (EvCopyfile src dst) (shutil_copyfile C src dst).

Definition call_reg_add (config : BottleConfig)
    (key_ value_ data_ : option string) (keyType : KeyType) : M W unit :=
  call (EvRegAdd key_ value_ data_ keyType)
       (reg_add C config key_ value_ data_ keyType).

(** *** Manifest resolution *)

Definition lift {A} (o : Outcome A) : M W A :=
  match o with
  | Ret a => ret a
  | Raise e => raise e
  end.

Definition manifest_url (dependency_name dependency_category : string)
    : string :=
  BottlesRepositories_dependencies G ++ "/" ++ dependency_category ++ "/"
    ++ dependency_name ++ ".yml".

Definition get_dependency (dependency_name dependency_category : string)
    (plain : bool) : M W DepResult :=
  connected <-
    (fun s =>
       let (b, w) := check_connection C (world s) in
       (Ret b, mkState w (config s) (trace s ++ [EvCheckConnection])%list)) ;;
  if connected then
    try_except
      (let u := manifest_url dependency_name dependency_category in
       body <- call (EvUrlopen u) (urlopen_read C u) ;;
       if plain then
         text <- lift (decode_utf8 C body) ;;
         ret (RPlain text)
       else
         doc <- lift (yaml_safe_load C body) ;;
         ret (match doc with Some m => RManifest m | None => RNone end))
      (fun _ => true)
      (emit (EvLogError
               ("Cannot fetch manifest for " ++ dependency_name ++ ".")) ;;;
       ret RFalse)
  else ret RFalse.

(** *** Step handlers

    A handler returns Python's [None] ([None] here) or [False]
    ([Some false]). *)

Definition step_delete_sys32_dlls (config : BottleConfig)
    (dlls_ : list string) : M W (option bool) :=
  for_in dlls_ tt (fun dll_ _ =>
    try_except
      (emit (EvLogInfo ("Removing [" ++ dll_ ++ "] from system32 in bottle: ["
                          ++ Name config ++ "]")) ;;;
       let p := Paths_bottles G ++ "/" ++ Name config
                  ++ "/drive_c/windows/system32/" ++ dll_ in
       call (EvRemove p) (os_remove C p))
      is_FileNotFoundError
      (emit (EvLogError ("DLL [" ++ dll_ ++ "] not found in bottle ["
                           ++ Name config ++ "].")))) ;;;
  ret None.

Definition step_install_exe_msi (config : BottleConfig) (step : Step)
    (widget : option Widget) : M W (option bool) :=
  download_ <- call_download step ;;
  if download_ then
    let file_ := rename_or_file_name step in
    let file_path := Paths_temp G ++ "/" ++ Py.fmt file_ in
    call (EvRunExecutable file_path (arguments step) (environment step))
         (run_executable C config file_path (arguments step)
            (environment step)) ;;;
    ret None
  else
    if_widget widget (emit (EvBtnInstallSetSensitive true)) ;;;
    ret (Some false).

Definition step_uninstall (config : BottleConfig) (file_name_ : string)
    : M W (option bool) :=
  let command :=
    "uninstaller --list | grep '" ++ file_name_ ++ "' | cut -f1 -d\|" in
  uuid <- call (EvRunCommand command) (run_command C config command) ;;
  let uuid := Py.strip uuid in
  if negb (uuid =? "") then
    emit (EvLogInfo ("Uninstalling [" ++ file_name_ ++ "] from bottle: ["
                       ++ Name config ++ "].")) ;;;
    call (EvRunUninstaller uuid) (run_uninstaller C config uuid) ;;;
    ret None
  else ret None.

Definition step_cab_extract (step : Step) (widget : option Widget)
    : M W (option bool) :=
  u <- subscript "url" (url step) ;;
  valid <- call (EvValidateUrl u) (validate_url C u) ;;
  if valid then
    download_ <- call_download step ;;
    if download_ then
      let file_ := rename_or_file_name step in
      ok <- call_CabExtract (Paths_temp G ++ "/" ++ Py.fmt file_) file_ ;;
      (if negb ok then if_widget widget (emit (EvIdleAdd WidgetSetErr))
       else ret tt) ;;;
      ok <- call_CabExtract (Paths_temp G ++ "/" ++ Py.fmt file_)
              (Some (Py.splitext_root (Py.fmt file_))) ;;
      (if negb ok then if_widget widget (emit (EvIdleAdd WidgetSetErr))
       else ret tt) ;;;
      ret None
    else ret None
  else if Py.startswith "temp/" u then
    let path := Py.replace "temp/" (Paths_temp G ++ "/") u in
    let file_path :=
      if Py.truthy (rename step)
      then Py.splitext_root (Py.fmt (rename step))
      else Py.splitext_root (Py.fmt (file_name step)) in
    ok <- call_CabExtract (path ++ "/" ++ Py.fmt (file_name step))
            (Some file_path) ;;
    if negb ok then
      if_widget widget (emit (EvIdleAdd WidgetSetErr)) ;;;
      raise SystemExit
    else ret None
  else ret None.

Definition step_archive_extract (step : Step) : M W (option bool) :=
  download_ <- call_download step ;;
  if download_ then
    file_ <- not_None (rename_or_file_name step) ;;
    let archive_name := Py.splitext_root file_ in
    let outdir := Paths_temp G ++ "/" ++ archive_name in
    exists_ <- query (os_path_exists C outdir) ;;
    (if exists_ then call (EvRmtree outdir) (shutil_rmtree C outdir)
     else ret tt) ;;;
    call (EvMakedirs outdir) (os_makedirs C outdir) ;;;
    call (EvExtractArchive (Paths_temp G ++ "/" ++ file_) outdir)
         (patoolib_extract_archive C (Paths_temp G ++ "/" ++ file_) outdir) ;;;
    ret None
  else ret None.

Definition step_install_fonts (config : BottleConfig) (step : Step)
    : M W (option bool) :=
  path <- subscript "url" (url step) ;;
  let path := Py.replace "temp/" (Paths_temp G ++ "/") path in
  bottle_path <- query (get_bottle_path C config) ;;
  fonts_ <- not_None (fonts step) ;;
  for_in fonts_ tt (fun font _ =>
    call_copyfile (path ++ "/" ++ font)
      (bottle_path ++ "/drive_c/windows/Fonts/" ++ font)) ;;;
  ret None.

Definition step_copy_dll (config : BottleConfig) (step : Step)
    : M W (option bool) :=
  path <- subscript "url" (url step) ;;
  let path := Py.replace "temp/" (Paths_temp G ++ "/") path in
  bottle_path <- query (get_bottle_path C config) ;;
  try_except
    (file_name_ <- not_None (file_name step) ;;
     if Py.contains "*" file_name_ then
       files <- query (glob C (path ++ "/" ++ file_name_)) ;;
       for_in files tt (fun fg _ =>
         call_copyfile fg
           (bottle_path ++ "/drive_c/" ++ Py.fmt (dest step) ++ "/"
              ++ Py.basename fg)) ;;;
       ret None
     else
       call_copyfile (path ++ "/" ++ file_name_)
         (bottle_path ++ "/drive_c/" ++ Py.fmt (dest step)) ;;;
       ret None)
    is_FileNotFoundError
    (emit (EvLogError
             ("dll " ++ Py.fmt (file_name step) ++
              " not found in temp directory, there should be other errors from cabextract.")) ;;;
     ret (Some false)).

Definition DllOverrides : string :=
  "HKEY_CURRENT_USER\Software\Wine\DllOverrides".

Definition step_override_dll (config : BottleConfig) (step : Step)
    : M W (option bool) :=
  if Py.truthy (url step) && Py.startswith "temp/" (Py.fmt (url step)) then
    let path := Py.replace "temp/" (Paths_temp G ++ "/") (Py.fmt (url step)) in
    let path := path ++ "/" ++ Py.fmt (dll step) in
    files <- query (glob C path) ;;
    for_in files tt (fun dll_ _ =>
      let dll_name := Py.splitext_root (Py.basename dll_) in
      call_reg_add config (Some DllOverrides) (Some dll_name) (type_ step)
        KeyTypeDefault) ;;;
    ret None
  else
    call_reg_add config (Some DllOverrides) (dll step) (type_ step)
      KeyTypeDefault ;;;
    ret None.

Definition step_set_register_key (config : BottleConfig) (step : Step)
    : M W (option bool) :=
  call_reg_add config (key step) (value step) (data step)
    (KeyTypeGiven (type_ step)) ;;;
  ret None.

Definition Fonts_key : string :=
  "HKEY_LOCAL_MACHINE\Software\Microsoft\Windows NT\CurrentVersion\Fonts".

Definition step_register_font (config : BottleConfig) (step : Step)
    : M W (option bool) :=
  call_reg_add config (Some Fonts_key) (name step) (file step)
    KeyTypeDefault ;;;
  ret None.

(** *** The ledger *)

(** Modelled from the spec: [manager.update_config] is defined outside
    this module.  It is the ledger's write: [value] is stored under [key]
    of the configuration dict it is handed, here the key
    [Installed_Dependencies]. *)
Definition update_config_Installed_Dependencies (value_ : list string)
    : M W unit :=
  emit (EvUpdateConfig "Installed_Dependencies" "") ;;;
  config_ <- get_config ;;
  put_config (mkBottleConfig (Name config_) (Versioning config_) value_
                (Uninstallers config_)).

(** Modelled from the spec: [manager.update_config] with the scope
    [Uninstallers]: [value] is stored under [key] of that mapping of the
    configuration dict, over any earlier reference for [key]. *)
Definition update_config_Uninstallers (key_ value_ : string) : M W unit :=
  emit (EvUpdateConfig key_ "Uninstallers") ;;;
  config_ <- get_config ;;
  put_config (mkBottleConfig (Name config_) (Versioning config_)
                (Installed_Dependencies config_)
                (<[key_ := value_]> (Uninstallers config_))).

(** [x in l] on a list of strings. *)
Definition mem (x : string) (l : list string) : bool :=
  existsb (String.eqb x) l.

(** *** The step executor *)

Definition in_actions (step : Step) (actions : list string) : bool :=
  mem (action step) actions.

(** The body of the loop over the steps: the ten tests on
    [step["action"]], in the order of the source. *)
Definition run_step (widget : option Widget) (step : Step)
    (has_no_uninstaller : bool) : M W bool :=
  (if action step =? "delete_sys32_dlls" then
     dlls_ <- subscript "dlls" (dlls step) ;;
     config_ <- get_config ;;
     step_delete_sys32_dlls config_ dlls_ ;;; ret tt
   else ret tt) ;;;
  (if in_actions step ["install_exe"; "install_msi"] then
     config_ <- get_config ;;
     step_install_exe_msi config_ step widget ;;; ret tt
   else ret tt) ;;;
  (if action step =? "uninstall" then
     file_name_ <- subscript "file_name" (file_name step) ;;
     config_ <- get_config ;;
     step_uninstall config_ file_name_ ;;; ret tt
   else ret tt) ;;;
  has_no_uninstaller <-
    (if action step =? "cab_extract" then
       step_cab_extract step widget ;;; ret true
     else ret has_no_uninstaller) ;;
  has_no_uninstaller <-
    (if action step =? "archive_extract" then
       step_archive_extract step ;;; ret true
     else ret has_no_uninstaller) ;;
  has_no_uninstaller <-
    (if in_actions step ["install_cab_fonts"; "install_fonts"] then
       config_ <- get_config ;;
       step_install_fonts config_ step ;;; ret true
     else ret has_no_uninstaller) ;;
  has_no_uninstaller <-
    (if in_actions step ["copy_cab_dll"; "copy_dll"] then
       config_ <- get_config ;;
       step_copy_dll config_ step ;;; ret true
     else ret has_no_uninstaller) ;;
  (if action step =? "override_dll" then
     config_ <- get_config ;;
     step_override_dll config_ step ;;; ret tt
   else ret tt) ;;;
  (if action step =? "set_register_key" then
     config_ <- get_config ;;
     step_set_register_key config_ step ;;; ret tt
   else ret tt) ;;;
  (if action step =? "register_font" then
     config_ <- get_config ;;
     step_register_font config_ step ;;; ret tt
   else ret tt) ;;;
  ret has_no_uninstaller.

(** [for step in manifest.get("Steps")], from [has_no_uninstaller]. *)
Definition run_steps (widget : option Widget) (steps : list Step)
    (has_no_uninstaller : bool) : M W bool :=
  for_in steps has_no_uninstaller (run_step widget).

(** What follows the loop: the two ledger writes and the report to the
    widget. *)
Definition record_install (dependency : Dependency) (widget : option Widget)
    (manifest : Manifest) (has_no_uninstaller : bool) : M W bool :=
  config_ <- get_config ;;
  (if negb (mem (dep_name dependency) (Installed_Dependencies config_)) then
     let dependencies :=
       match Installed_Dependencies config_ with
       | [] => [dep_name dependency]
       | _ => (Installed_Dependencies config_ ++ [dep_name dependency])%list
       end in
     update_config_Installed_Dependencies dependencies
   else ret tt) ;;;
  (if Py.truthy (Uninstaller manifest) || has_no_uninstaller then
     let uninstaller :=
       if has_no_uninstaller then Some NO_UNINSTALLER
       else Uninstaller manifest in
     match uninstaller with
     | Some uninstaller_ =>
         update_config_Uninstallers (dep_name dependency) uninstaller_
     | None => ret tt
     end
   else ret tt) ;;;
  emit (EvIdleAdd DownloadEntryRemove) ;;;
  if_widget widget
    (if has_no_uninstaller then emit (EvIdleAdd (WidgetSetInstalled false))
     else emit (EvIdleAdd (WidgetSetInstalled true))) ;;;
  ret true.

(** Lines 111 to 137: the snapshot, the download entry and the manifest. *)
Definition resolve_manifest (dependency : Dependency) : M W DepResult :=
  config_ <- get_config ;;
  (if Versioning config_ then
     let comment := "before " ++ dep_name dependency in
     call (EvCreateBottleState comment)
          (async_create_bottle_state C config_ comment)
   else ret tt) ;;;
  call (EvNewDownload (dep_name dependency))
       (new_download C (dep_name dependency)) ;;;
  emit (EvLogInfo ("Installing dependency [" ++ dep_name dependency
                     ++ "] in bottle [" ++ Name config_ ++ "].")) ;;;
  get_dependency (dep_name dependency) (dep_Category dependency) false.

(** [async_install([config, dependency, widget])], [config] being the
    configuration of the state. *)
Definition async_install (dependency : Dependency) (widget : option Widget)
    : M W bool :=
  manifest <- resolve_manifest dependency ;;
  if not_found manifest then
    match widget with
    | Some _ => emit (EvIdleAdd (WidgetSetInstalled false)) ;;; ret false
    | None => raise AttributeError
    end
  else
    match manifest with
    | RManifest m =>
        has_no_uninstaller <- run_steps widget (Steps m) false ;;
        record_install dependency widget m has_no_uninstaller
    | _ => raise AttributeError
    end.

End DependencyManager.

(** ** Scripted collaborators

    A world with scripted answers, to run the manager on concrete inputs:
    whether the network is reachable, what the repository serves, whether
    downloads, URL validation and cabinet extraction succeed, and which files
    exist (the others make [copyfile] and [remove] raise
    [FileNotFoundError]). *)

Record Scenario : Type := mkScenario {
  connected : bool;
  served : Outcome (option Manifest);
  download_ok : bool;
  url_valid : bool;
  cabextract_ok : bool;
  files : list string
}.

Definition file_must_exist (sc : Scenario) (p : string) (w : unit)
    : Outcome unit * unit :=
  if existsb (String.eqb p) (files sc) then (Ret tt, w)
  else (Raise FileNotFoundError, w).

Definition scripted (sc : Scenario) : Collaborators unit :=
  {| check_connection := fun w => (connected sc, w);
     async_create_bottle_state := fun _ _ w => (Ret tt, w);
     new_download := fun _ w => (Ret tt, w);
     download := fun _ _ _ _ w => (Ret (download_ok sc), w);
     run_executable := fun _ _ _ _ w => (Ret tt, w);
     run_command := fun _ _ w => (Ret "", w);
     run_uninstaller := fun _ _ w => (Ret tt, w);
     get_bottle_path := fun c _ => "/bottles/" ++ Name c;
     reg_add := fun _ _ _ _ _ w => (Ret tt, w);
     validate_url := fun _ w => (Ret (url_valid sc), w);
     CabExtract_run := fun _ _ w => (Ret (cabextract_ok sc), w);
     urlopen_read := fun _ w => (Ret "Steps: []", w);
     decode_utf8 := fun body => Ret body;
     yaml_safe_load := fun _ => served sc;
     os_remove := file_must_exist sc;
     os_path_exists := fun p _ => existsb (String.eqb p) (files sc);
     shutil_rmtree := fun _ w => (Ret tt, w);
     os_makedirs := fun _ w => (Ret tt, w);
     patoolib_extract_archive := fun _ _ w => (Ret tt, w);
     shutil_copyfile := fun src _ w => file_must_exist sc src w;
     glob := fun _ _ => files sc |}.

Definition test_globals : Globals :=
  {| Paths_temp := "/tmp/bottles";
     Paths_bottles := "/bottles";
     BottlesRepositories_dependencies := "https://repo/dependencies" |}.

Definition empty_step (action_ : string) : Step :=
  mkStep action_ None None None None None None None None None None None None
    None None None None.

(** A bottle with nothing installed. *)
Definition fresh_bottle : BottleConfig :=
  mkBottleConfig "test" false [] ∅.

Definition start (c : BottleConfig) : State unit := mkState tt c [].

Definition vcredist : Dependency := mkDependency "vcredist2019" "Essentials".

(** [install_exe] of a file fetched from the network. *)
Definition setup_exe : Step :=
  mkStep "install_exe" (Some "https://host/setup.exe") (Some "setup.exe") None
    (Some "abc") None None None None None None None None None None None None.

(** [cab_extract] of a cabinet staged by an earlier step. *)
Definition staged_cab : Step :=
  mkStep "cab_extract" (Some "temp/pack") (Some "a.cab") None None None None
    None None None None None None None None None None.

(** [archive_extract] of a fetched archive. *)
Definition pack_zip : Step :=
  mkStep "archive_extract" (Some "https://host/pack.zip") (Some "pack.zip")
    None None None None None None None None None None None None None None.

Definition a_register_key : Step :=
  mkStep "set_register_key" None None None None None None None None None None
    (Some "REG_SZ") (Some "HKEY_CURRENT_USER\Software\Test") (Some "v")
    (Some "d") None None.



(** Every collaborator answers and succeeds, the repository serving [m]. *)
Definition all_fine (m : Manifest) : Scenario :=
  mkScenario true (Ret (Some m)) true true true [].

(** Downloads fail; the rest is as in [all_fine]. *)
Definition downloads_fail (m : Manifest) : Scenario :=
  mkScenario true (Ret (Some m)) false true true [].

(** URLs are not validated and cabinet extraction fails. *)
Definition cabextract_fails (m : Manifest) : Scenario :=
  mkScenario true (Ret (Some m)) true false false [].

(** URLs are not validated and cabinet extraction succeeds. *)
Definition staged_cab_extracts (m : Manifest) : Scenario :=
  mkScenario true (Ret (Some m)) true false true [].

(** No network. *)
Definition offline : Scenario :=
  mkScenario false (Raise (OtherError "unreachable")) true true true [].

(** [install_fonts] of a font that no earlier step staged. *)
Definition missing_font : Step :=
  mkStep "install_fonts" (Some "temp/fonts") None None None None None None
    (Some ["arial.ttf"]) None None None None None None None None.

(** Two DLLs staged under the temp directory. *)
Definition staged_dlls (m : Manifest) : Scenario :=
  mkScenario true (Ret (Some m)) true true true
    ["/tmp/bottles/pack/a.dll"; "/tmp/bottles/pack/b.dll"].

(** Manifests. *)
Definition exe_with_uninstaller : Manifest :=
  mkManifest [setup_exe] (Some "Setup").
Definition exe_without_uninstaller : Manifest := mkManifest [setup_exe] None.
Definition zip_with_uninstaller : Manifest :=
  mkManifest [pack_zip] (Some "Setup").
Definition cab_with_uninstaller : Manifest :=
  mkManifest [staged_cab] (Some "Setup").
Definition cab_then_key : Manifest :=
  mkManifest [staged_cab; a_register_key] None.
Definition exe_then_key : Manifest :=
  mkManifest [setup_exe; a_register_key] None.
Definition exe_then_zip : Manifest := mkManifest [setup_exe; pack_zip] None.
Definition fonts_only : Manifest := mkManifest [missing_font] None.

(** The install of [vcredist] in a fresh bottle, and its resolution phase. *)
Definition run (sc : Scenario) (widget : option Widget)
    : Outcome bool * State unit :=
  async_install test_globals (scripted sc) vcredist widget (start fresh_bottle).

Definition resolved (sc : Scenario) : Outcome DepResult * State unit :=
  resolve_manifest test_globals (scripted sc) vcredist (start fresh_bottle).


(** A step of the kinds that leave no way to uninstall: the four tests of
    the loop that set [has_no_uninstaller]. *)
Definition no_uninstaller_step (step : Step) : bool :=
  (action step =? "cab_extract")
  || (action step =? "archive_extract")
  || in_actions step ["install_cab_fonts"; "install_fonts"]
  || in_actions step ["copy_cab_dll"; "copy_dll"].

(** An [update_config] call. *)
Definition is_update_config (e : Event) : bool :=
  match e with
  | EvUpdateConfig _ _ => true
  | _ => false
  end.


(** A [widget.set_installed] handed to the main loop. *)
Definition is_set_installed (e : Event) : bool :=
  match e with
  | EvIdleAdd (WidgetSetInstalled _) => true
  | _ => false
  end.

(** The calls by which an install is recorded and reported. *)
Definition is_record (e : Event) : bool :=
  is_update_config e || is_set_installed e.

(** A computation is quiet when it leaves the configuration as it found it
    and neither calls [update_config] nor reports to the widget. *)
Definition quiet_step {W} (s s' : State W) : Prop :=
  config s' = config s /\
  exists evs, trace s' = (trace s ++ evs)%list /\
              forallb (fun e => negb (is_record e)) evs = true.

Definition quiet {W A} (m : M W A) : Prop :=
  forall s, quiet_step s (snd (m s)).

(** The two arguments of [CabExtract().run] in the branch of
    [step_cab_extract] for a cabinet staged under [temp/]. *)
Definition staged_cab_path (G : Globals) (step : Step) (u : string) : string :=
  Py.replace "temp/" (Paths_temp G ++ "/") u ++ "/" ++ Py.fmt (file_name step).

Definition staged_cab_name (step : Step) : string :=
  if Py.truthy (rename step)
  then Py.splitext_root (Py.fmt (rename step))
  else Py.splitext_root (Py.fmt (file_name step)).

(** What a widget, when there is one, adds to the trace. *)
Definition with_widget (widget : option Widget) (e : Event) : list Event :=
  match widget with
  | Some _ => [e]
  | None => []
  end.

(** A computation that can only return [v]. *)
Definition only_returns {W A} (v : A) (m : M W A) : Prop :=
  forall s a s', m s = (Ret a, s') -> a = v.

(** ** The catalog *)

Section Catalog.
Context {W V : Type}.

(** [BottlesRepositories.dependencies_index], a constant of [globals.py]. *)
Variable dependencies_index : string.
Variable C : Collaborators W.

(** [yaml.safe_load] on the index: a mapping from dependency names to their
    entries, of type [V], or [None] when the document is empty. *)
Variable yaml_safe_load_index : string -> Outcome (option (gmap string V)).

(** [self.__utils_conn.check_connection()]. *)
Definition call_check_connection : M W bool :=
  fun s =>
    let (b, w) := check_connection C (world s) in
    (Ret b, mkState w (config s) (trace s ++ [EvCheckConnection])%list).

(** [fetch_catalog()].  The guarded block gives the index, or [None] when
    its [except] clause has returned the empty dict; the loop over
    [index.items()] runs outside the guard. *)
Definition fetch_catalog : M W (gmap string V) :=
  connected <- call_check_connection ;;
  if negb connected then ret ∅
  else
    fetched <-
      try_except
        (body <- call (EvUrlopen dependencies_index)
                   (urlopen_read C dependencies_index) ;;
         index <- lift (yaml_safe_load_index body) ;;
         ret (Some index))
        (fun _ => true)
        (emit (EvLogError "Cannot fetch dependencies list.") ;;; ret None) ;;
    match fetched with
    | None => ret ∅
    | Some index =>
        items <-
          match index with
          | Some d => ret (map_to_list d)
          | None => raise AttributeError
          end ;;
        for_in items ∅ (fun dependency catalog =>
          ret (<[fst dependency := snd dependency]> catalog))
    end.

End Catalog.

(** ** Kinds of calls *)

(** The actions that the loop of [async_install] tests for. *)
Definition known_actions : list string :=
  ["delete_sys32_dlls"; "install_exe"; "install_msi"; "uninstall";
   "cab_extract"; "archive_extract"; "install_cab_fonts"; "install_fonts";
   "copy_cab_dll"; "copy_dll"; "override_dll"; "set_register_key";
   "register_font"].

Definition is_run_executable (e : Event) : bool :=
  match e with
  | EvRunExecutable _ _ _ => true
  | _ => false
  end.

Definition is_download_entry_remove (e : Event) : bool :=
  match e with
  | EvIdleAdd DownloadEntryRemove => true
  | _ => false
  end.

(** A computation avoids the calls that [P] picks when it issues none. *)
Definition avoids {W A} (P : Event -> bool) (m : M W A) : Prop :=
  forall s, exists evs,
    trace (snd (m s)) = (trace s ++ evs)%list /\
    forallb (fun e => negb (P e)) evs = true.

(** The paths of the [os.remove] calls among [evs]. *)
Fixpoint remove_calls (evs : list Event) : list string :=
  match evs with
  | [] => []
  | EvRemove p :: rest => p :: remove_calls rest
  | _ :: rest => remove_calls rest
  end.

(** The [(key, value, data)] arguments of the [reg_add] calls among [evs]. *)
Fixpoint reg_add_calls (evs : list Event)
    : list (option string * option string * option string) :=
  match evs with
  | [] => []
  | EvRegAdd k v d _ :: rest => (k, v, d) :: reg_add_calls rest
  | _ :: rest => reg_add_calls rest
  end.

(** A string of white space only. *)
Definition all_space (s : string) : bool :=
  forallb Py.isspace (Py.chars s).

(** An index of two dependencies, and collaborators to fetch it. *)
Definition two_entries : gmap string string :=
  <["dotnet48" := "Essentials"]> (<["vcredist2019" := "Essentials"]> ∅).

Definition index_url : string := "https://repo/dependencies/index.yml".

(** More inputs for runs on scripted collaborators. *)
Definition parse_two_entries (body : string)
    : Outcome (option (gmap string string)) :=
  Ret (Some two_entries).

Definition fine : Collaborators unit := scripted (all_fine exe_with_uninstaller).

(** One of two DLLs is in [system32]. *)
Definition one_dll_present : Scenario :=
  mkScenario true (Ret (Some exe_with_uninstaller)) true true true
    ["/bottles/test/drive_c/windows/system32/a.dll"].

(** A step whose action is misspelt. *)
Definition misspelt_step : Step := empty_step "install_exee".

(** An installer renamed after its download. *)
Definition renamed_exe : Step :=
  mkStep "install_exe" (Some "https://host/setup.exe") (Some "setup.exe")
    (Some "vc.exe") None (Some "/q") None None None None None None None None
    None None None.

(** A cabinet to fetch. *)
Definition fetched_cab : Step :=
  mkStep "cab_extract" (Some "https://host/a.cab") (Some "a.cab") None None
    None None None None None None None None None None None None.

(** Overrides for the DLLs staged by an earlier step. *)
Definition override_staged : Step :=
  mkStep "override_dll" (Some "temp/pack") None None None None None None None
    None (Some "*.dll") (Some "native") None None None None None.




(** A bottle in which another dependency is installed, with its
    uninstaller. *)
Definition bottle_with_dotnet : BottleConfig :=
  mkBottleConfig "test" false ["dotnet48"] (<["dotnet48" := "Dotnet"]> ∅).


(** The runner's listing of uninstallers gives [out]. *)
Definition listing (out : string) : Collaborators unit :=
  {| check_connection := check_connection fine;
     async_create_bottle_state := async_create_bottle_state fine;
     new_download := new_download fine;
     download := download fine;
     run_executable := run_executable fine;
     run_command := fun _ _ w => (Ret out, w);
     run_uninstaller := run_uninstaller fine;
     get_bottle_path := get_bottle_path fine;
     reg_add := reg_add fine;
     validate_url := validate_url fine;
     CabExtract_run := CabExtract_run fine;
     urlopen_read := urlopen_read fine;
     decode_utf8 := decode_utf8 fine;
     yaml_safe_load := yaml_safe_load fine;
     os_remove := os_remove fine;
     os_path_exists := os_path_exists fine;
     shutil_rmtree := shutil_rmtree fine;
     os_makedirs := os_makedirs fine;
     patoolib_extract_archive := patoolib_extract_archive fine;
     shutil_copyfile := shutil_copyfile fine;
     glob := glob fine |}.

(** A no-break space and a line feed. *)
Definition nbsp_newline : string := Py.of_bytes [194; 160; 10]%nat.


(** * Properties *)

Section Combinators.
Context {W : Type}.

Lemma bind_Ret {A B} (m : M W A) (k : A -> M W B) s a s' :
  m s = (Ret a, s') -> bind m k s = k a s'.
Proof. intros H. unfold bind. now rewrite H. Qed.

Lemma bind_Raise {A B} (m : M W A) (k : A -> M W B) s e s' :
  m s = (Raise e, s') -> bind m k s = (Raise e, s').
Proof. intros H. unfold bind. now rewrite H. Qed.

Lemma bind_Ret_inv {A B} (m : M W A) (k : A -> M W B) s b s' :
  bind m k s = (Ret b, s') ->
  exists a s1, m s = (Ret a, s1) /\ k a s1 = (Ret b, s').
Proof.
  unfold bind. destruct (m s) as [[a | e] s1]; intros H.
  - now exists a, s1.
  - discriminate.
Qed.

Lemma quiet_step_refl (s : State W) : quiet_step s s.
Proof. split; [reflexivity | exists []; now rewrite app_nil_r]. Qed.

Lemma quiet_step_trans (s1 s2 s3 : State W) :
  quiet_step s1 s2 -> quiet_step s2 s3 -> quiet_step s1 s3.
Proof.
  intros [Hc1 (e1 & Ht1 & Hq1)] [Hc2 (e2 & Ht2 & Hq2)]. split.
  - congruence.
  - exists (e1 ++ e2)%list. split.
    + rewrite Ht2, Ht1. now rewrite app_assoc.
    + rewrite forallb_app, Hq1, Hq2. reflexivity.
Qed.

Lemma quiet_step_event (s : State W) e :
  is_record e = false ->
  forall w, quiet_step s (mkState w (config s) (trace s ++ [e])%list).
Proof.
  intros He w. split; [reflexivity |]. exists [e]. split; [reflexivity |].
  simpl. now rewrite He.
Qed.

Lemma quiet_ret {A} (a : A) : quiet (ret (W := W) a).
Proof. intros s. apply quiet_step_refl. Qed.

Lemma quiet_raise {A} e : quiet (raise (W := W) (A := A) e).
Proof. intros s. apply quiet_step_refl. Qed.

Lemma quiet_bind {A B} (m : M W A) (k : A -> M W B) :
  quiet m -> (forall a, quiet (k a)) -> quiet (bind m k).
Proof.
  intros Hm Hk s. unfold bind. specialize (Hm s).
  destruct (m s) as [[a | e] s1]; simpl in *.
  - eapply quiet_step_trans; [exact Hm | apply Hk].
  - exact Hm.
Qed.

Lemma quiet_try_except {A} (body handler : M W A) catches :
  quiet body -> quiet handler -> quiet (try_except body catches handler).
Proof.
  intros Hb Hh s. unfold try_except. specialize (Hb s).
  destruct (body s) as [[a | e] s1]; simpl in *; [exact Hb |].
  destruct (catches e); [| exact Hb].
  eapply quiet_step_trans; [exact Hb | apply Hh].
Qed.

Lemma quiet_emit e : is_record e = false -> quiet (emit (W := W) e).
Proof. intros He s. now apply quiet_step_event. Qed.

Lemma quiet_call {R} e (f : W -> Outcome R * W) :
  is_record e = false -> quiet (call e f).
Proof.
  intros He s. unfold call. destruct (f (world s)) as [r w]. simpl.
  now apply quiet_step_event.
Qed.

Lemma quiet_query {R} (f : W -> R) : quiet (query f).
Proof. intros s. apply quiet_step_refl. Qed.

Lemma quiet_get_config : quiet (get_config (W := W)).
Proof. intros s. apply quiet_step_refl. Qed.

Lemma quiet_subscript {A} k (field : option A) :
  quiet (subscript (W := W) k field).
Proof. destruct field; [apply quiet_ret | apply quiet_raise]. Qed.

Lemma quiet_not_None {A} (field : option A) :
  quiet (not_None (W := W) field).
Proof. destruct field; [apply quiet_ret | apply quiet_raise]. Qed.

Lemma quiet_for_in {A S} (xs : list A) (body : A -> S -> M W S) :
  (forall x acc, quiet (body x acc)) ->
  forall acc, quiet (for_in xs acc body).
Proof.
  intros Hb. induction xs as [| x rest IH]; intros acc; simpl.
  - apply quiet_ret.
  - apply quiet_bind; [apply Hb | intros a; apply IH].
Qed.

Lemma quiet_if_widget widget (body : M W unit) :
  quiet body -> quiet (if_widget widget body).
Proof. intros Hb. destruct widget; [exact Hb | apply quiet_ret]. Qed.

End Combinators.

Create HintDb quiet.

#[local] Hint Resolve quiet_ret quiet_raise quiet_query quiet_get_config
  quiet_subscript quiet_not_None : quiet.

(** Breaks a computation into its parts, down to calls and marks. *)
Ltac quiet_tac :=
  repeat first
    [ progress intros
    | apply quiet_bind
    | apply quiet_try_except
    | apply quiet_for_in
    | apply quiet_if_widget
    | apply quiet_emit; reflexivity
    | apply quiet_call; reflexivity
    | solve [auto with quiet]
    | match goal with
      | |- quiet (if ?b then _ else _) => destruct b
      | |- quiet (match ?o with _ => _ end) => destruct o
      end ].

(** Settles the tests of the dispatch once [Ha] tells the step's action. *)
Ltac decide_action Ha :=
  unfold run_step, in_actions, mem; rewrite Ha; cbn [existsb];
  repeat match goal with
    | |- context [String.eqb ?a ?b] =>
        let v := eval vm_compute in (String.eqb a b) in
        progress change (String.eqb a b) with v
    end;
  cbn [orb]; cbv beta iota.

Section Properties.
Context {W : Type}.
Variable G : Globals.
Variable C : Collaborators W.

(** ** The handlers leave the ledger alone *)

Lemma quiet_get_dependency n c plain : quiet (get_dependency G C n c plain).
Proof.
  unfold get_dependency. apply quiet_bind.
  - intros s. destruct (check_connection C (world s)) as [b w] eqn:E.
    simpl. now apply quiet_step_event.
  - intros [|]; [| apply quiet_ret].
    apply quiet_try_except; unfold lift; quiet_tac.
Qed.

Lemma quiet_resolve_manifest dep : quiet (resolve_manifest G C dep).
Proof.
  unfold resolve_manifest.
  apply quiet_bind; [apply quiet_get_config | intros config_].
  do 3 (apply quiet_bind; [quiet_tac | intros _]).
  apply quiet_get_dependency.
Qed.

Lemma quiet_run_step widget step h : quiet (run_step G C widget step h).
Proof.
  unfold run_step, step_delete_sys32_dlls, step_install_exe_msi,
    step_uninstall, step_cab_extract, step_archive_extract,
    step_install_fonts, step_copy_dll, step_override_dll,
    step_set_register_key, step_register_font, call_download,
    call_CabExtract, call_copyfile, call_reg_add.
  quiet_tac.
Qed.

Lemma quiet_run_steps widget steps h : quiet (run_steps G C widget steps h).
Proof.
  unfold run_steps. apply quiet_for_in. intros. apply quiet_run_step.
Qed.

(** ** The flag [has_no_uninstaller] *)

Lemma only_returns_ret {A} (v : A) : only_returns v (ret (W := W) v).
Proof. intros s a s' H. unfold ret in H. congruence. Qed.

Lemma only_returns_bind {A B} (v : B) (m : M W A) (k : A -> M W B) :
  (forall a, only_returns v (k a)) -> only_returns v (bind m k).
Proof.
  intros Hk s b s' H. apply bind_Ret_inv in H as (a & s1 & _ & H).
  eapply Hk, H.
Qed.

Lemma flag_inv (c : bool) (m : M W bool) h s a s' :
  only_returns true m ->
  (if c then m else ret h) s = (Ret a, s') -> a = c || h.
Proof.
  intros Hm H. destruct c; simpl.
  - eapply Hm, H.
  - unfold ret in H. congruence.
Qed.

Lemma run_step_flag widget step h s h' s' :
  run_step G C widget step h s = (Ret h', s') ->
  h' = h || no_uninstaller_step step.
Proof.
  intros H. unfold run_step in H.
  do 3 (apply bind_Ret_inv in H as (? & ? & _ & H)).
  apply bind_Ret_inv in H as (h1 & ? & H1 & H).
  apply bind_Ret_inv in H as (h2 & ? & H2 & H).
  apply bind_Ret_inv in H as (h3 & ? & H3 & H).
  apply bind_Ret_inv in H as (h4 & ? & H4 & H).
  do 3 (apply bind_Ret_inv in H as (? & ? & _ & H)).
  unfold ret in H. injection H as <- _.
  apply flag_inv in H1, H2, H3, H4;
    try (repeat (apply only_returns_bind; intros); apply only_returns_ret).
  subst h1 h2 h3 h4. unfold no_uninstaller_step.
  destruct (action step =? "cab_extract"),
    (action step =? "archive_extract"),
    (in_actions step ["install_cab_fonts"; "install_fonts"]),
    (in_actions step ["copy_cab_dll"; "copy_dll"]), h; reflexivity.
Qed.

Lemma run_steps_flag widget steps h s h' s' :
  run_steps G C widget steps h s = (Ret h', s') ->
  h' = h || existsb no_uninstaller_step steps.
Proof.
  revert h s. induction steps as [| step rest IH]; intros h s H.
  - simpl in H. unfold ret in H. injection H as <- _.
    now rewrite orb_false_r.
  - simpl in H. apply bind_Ret_inv in H as (h1 & s1 & H1 & H).
    apply run_step_flag in H1. apply IH in H. subst. simpl.
    now rewrite orb_assoc.
Qed.

(** The loop over a list of steps is the loop over its first part followed,
    when that part returned, by the loop over the rest from where it
    stopped. *)
Lemma run_steps_app widget pre post h s :
  run_steps G C widget (pre ++ post)%list h s =
  match run_steps G C widget pre h s with
  | (Ret h1, s1) => run_steps G C widget post h1 s1
  | (Raise e, s1) => (Raise e, s1)
  end.
Proof.
  unfold run_steps. revert h s.
  induction pre as [| step rest IH]; intros h s.
  - reflexivity.
  - simpl. unfold bind.
    destruct (run_step G C widget step h s) as [[h1 | e] s1].
    + apply IH.
    + reflexivity.
Qed.

(** ** The ledger writes *)

Lemma record_install_spec dep widget m h (s : State W) :
  exists s',
    record_install dep widget m h s = (Ret true, s') /\
    world s' = world s /\
    Installed_Dependencies (config s') =
      (if mem (dep_name dep) (Installed_Dependencies (config s))
       then Installed_Dependencies (config s)
       else (Installed_Dependencies (config s) ++ [dep_name dep])%list) /\
    Uninstallers (config s') =
      (if Py.truthy (Uninstaller m) || h
       then <[dep_name dep :=
                if h then NO_UNINSTALLER else Py.fmt (Uninstaller m)]>
              (Uninstallers (config s))
       else Uninstallers (config s)) /\
    trace s' =
      (trace s
       ++ (if mem (dep_name dep) (Installed_Dependencies (config s))
           then [] else [EvUpdateConfig "Installed_Dependencies" ""])
       ++ (if Py.truthy (Uninstaller m) || h
           then [EvUpdateConfig (dep_name dep) "Uninstallers"] else [])
       ++ [EvIdleAdd DownloadEntryRemove]
       ++ match widget with
          | Some _ => [EvIdleAdd (WidgetSetInstalled (negb h))]
          | None => []
          end)%list.
Proof.
  destruct s as [w c t]. destruct c as [n v deps us].
  unfold record_install, update_config_Installed_Dependencies,
    update_config_Uninstallers, if_widget, bind, get_config, put_config,
    emit, ret. simpl.
  destruct (mem (dep_name dep) deps) eqn:Em; destruct deps as [| d ds];
    destruct (Uninstaller m) as [u |]; simpl;
    try destruct (u =? ""); destruct h; destruct widget; simpl;
    eexists; repeat split; simpl;
    rewrite <- ?app_assoc; reflexivity.
Qed.

Lemma mem_In x l : mem x l = true <-> In x l.
Proof.
  unfold mem. rewrite existsb_exists. split.
  - intros (y & Hy & E). apply String.eqb_eq in E. now subst.
  - intros H. exists x. split; [exact H | apply String.eqb_refl].
Qed.

(** ** The executor, by what resolution gave *)

Lemma async_install_found dep widget s m s1 :
  resolve_manifest G C dep s = (Ret (RManifest m), s1) ->
  async_install G C dep widget s =
  match run_steps G C widget (Steps m) false s1 with
  | (Ret h, s2) => record_install dep widget m h s2
  | (Raise e, s2) => (Raise e, s2)
  end.
Proof.
  intros H. unfold async_install. now rewrite (bind_Ret _ _ _ _ _ H).
Qed.

Lemma async_install_not_found dep widget s r s1 :
  resolve_manifest G C dep s = (Ret r, s1) ->
  not_found r = true ->
  async_install G C dep widget s =
  match widget with
  | Some _ =>
      (Ret false,
       mkState (world s1) (config s1)
         (trace s1 ++ [EvIdleAdd (WidgetSetInstalled false)])%list)
  | None => (Raise AttributeError, s1)
  end.
Proof.
  intros H Hr. unfold async_install. rewrite (bind_Ret _ _ _ _ _ H), Hr.
  now destruct widget.
Qed.

(** A returning run went through a resolved manifest and a loop that
    returned, or through the not-found branch. *)
Lemma async_install_Ret_inv dep widget s b s' :
  async_install G C dep widget s = (Ret b, s') ->
  exists r s1,
    resolve_manifest G C dep s = (Ret r, s1) /\
    ((not_found r = true /\ b = false) \/
     (exists m h s2,
        r = RManifest m /\
        run_steps G C widget (Steps m) false s1 = (Ret h, s2) /\
        record_install dep widget m h s2 = (Ret b, s') /\ b = true)).
Proof.
  intros H. unfold async_install in H.
  apply bind_Ret_inv in H as (r & s1 & Hr & H). exists r, s1.
  split; [exact Hr |]. destruct (not_found r) eqn:Enf.
  - left. split; [reflexivity |].
    destruct widget; [| discriminate]. unfold bind, emit, ret in H.
    congruence.
  - right. destruct r as [| | text | m]; try discriminate.
    apply bind_Ret_inv in H as (h & s2 & Hh & H). exists m, h, s2.
    repeat split; try assumption.
    destruct (record_install_spec dep widget m h s2) as (s3 & E & _).
    congruence.
Qed.

(** The only [False] that [async_install] returns is that of a manifest
    not found. *)
Lemma async_install_False_inv dep widget s s' :
  async_install G C dep widget s = (Ret false, s') ->
  exists r s1,
    resolve_manifest G C dep s = (Ret r, s1) /\ not_found r = true.
Proof.
  intros H. apply async_install_Ret_inv in H as (r & s1 & Hr & [[Hn _] | H]).
  - now exists r, s1.
  - destruct H as (m & h & s2 & _ & _ & _ & E). discriminate.
Qed.

(** ** Claims *)

(** C1 (as amended).  When the resolved manifest has a step of kind
    cab_extract, archive_extract, install_fonts / install_cab_fonts or
    copy_dll / copy_cab_dll and [async_install] returns, the reference
    recorded for the dependency in [Uninstallers] is [NO_UNINSTALLER],
    whatever [Uninstaller] the manifest declares and whatever the handlers
    that returned have done. *)
Theorem async_install_records_NO_UNINSTALLER dep widget s m s1 b s' :
  resolve_manifest G C dep s = (Ret (RManifest m), s1) ->
  existsb no_uninstaller_step (Steps m) = true ->
  async_install G C dep widget s = (Ret b, s') ->
  Uninstallers (config s') !! dep_name dep = Some NO_UNINSTALLER.
Proof.
  intros Hm Hs H. rewrite (async_install_found _ _ _ _ _ Hm) in H.
  destruct (run_steps G C widget (Steps m) false s1) as [[h | e] s2] eqn:Er;
    [| discriminate].
  apply run_steps_flag in Er. rewrite Hs in Er. simpl in Er. subst h.
  destruct (record_install_spec dep widget m true s2)
    as (s3 & E & _ & _ & Hu & _).
  rewrite E in H. injection H as _ <-. rewrite Hu, orb_true_r.
  apply lookup_insert_eq.
Qed.

(** C9 (as amended).  Once the manifest is resolved, [async_install]
    returns [True] as soon as the loop over the steps returns, whatever the
    handlers did; it returns nothing else; and when a handler raises, the
    exception leaves [async_install] from the state the handler left. *)
Theorem async_install_returns_True dep widget s m s1 :
  resolve_manifest G C dep s = (Ret (RManifest m), s1) ->
  (forall h s2,
      run_steps G C widget (Steps m) false s1 = (Ret h, s2) ->
      fst (async_install G C dep widget s) = Ret true) /\
  (forall e s2,
      run_steps G C widget (Steps m) false s1 = (Raise e, s2) ->
      async_install G C dep widget s = (Raise e, s2)) /\
  (forall b s', async_install G C dep widget s = (Ret b, s') -> b = true).
Proof.
  intros Hm. rewrite (async_install_found _ _ _ _ _ Hm). repeat split.
  - intros h s2 Er. rewrite Er.
    destruct (record_install_spec dep widget m h s2) as (s3 & E & _).
    now rewrite E.
  - intros e s2 Er. now rewrite Er.
  - intros b s' H.
    destruct (run_steps G C widget (Steps m) false s1) as [[h | e] s2];
      [| discriminate].
    destruct (record_install_spec dep widget m h s2) as (s3 & E & _).
    congruence.
Qed.

(** C6.  When the resolved manifest declares no [Uninstaller] and has no
    step of kind cab_extract, archive_extract, install_fonts /
    install_cab_fonts or copy_dll / copy_cab_dll, [async_install] leaves
    the [Uninstallers] mapping as it was and calls [update_config] on it
    not once, however the run ends. *)
Theorem async_install_no_uninstaller_entry dep widget s m s1 :
  resolve_manifest G C dep s = (Ret (RManifest m), s1) ->
  Uninstaller m = None ->
  existsb no_uninstaller_step (Steps m) = false ->
  Uninstallers (config (snd (async_install G C dep widget s))) =
    Uninstallers (config s) /\
  exists evs,
    trace (snd (async_install G C dep widget s)) = (trace s ++ evs)%list /\
    forall k, ~ In (EvUpdateConfig k "Uninstallers") evs.
Proof.
  intros Hm Hu Hs. rewrite (async_install_found _ _ _ _ _ Hm).
  pose proof (quiet_resolve_manifest dep s) as Q1. rewrite Hm in Q1.
  pose proof (quiet_run_steps widget (Steps m) false s1) as Q2.
  pose proof (quiet_step_trans _ _ _ Q1 Q2) as [Qc (evs & Qt & Qe)].
  simpl in Qc, Qt.
  assert (Hq : forall k, ~ In (EvUpdateConfig k "Uninstallers") evs).
  { intros k Hin. rewrite forallb_forall in Qe. now apply Qe in Hin. }
  destruct (run_steps G C widget (Steps m) false s1) as [[h | e] s2] eqn:Er;
    simpl in *.
  - apply run_steps_flag in Er. rewrite Hs in Er. simpl in Er. subst h.
    destruct (record_install_spec dep widget m false s2)
      as (s3 & E & _ & _ & Hus & Ht).
    rewrite E. simpl. rewrite Hus, Hu in *. simpl in *. split.
    + now rewrite Qc.
    + rewrite Ht, Qt, <- app_assoc. eexists. split; [reflexivity |].
      intros k Hin. apply in_app_or in Hin as [Hin | Hin].
      * now apply (Hq k).
      * destruct (mem (dep_name dep) (Installed_Dependencies (config s2)));
          destruct widget; simpl in Hin; intuition discriminate.
  - split; [now rewrite Qc |]. now exists evs.
Qed.

Lemma quiet_no_set_installed evs :
  forallb (fun e => negb (is_record e)) evs = true ->
  forallb (fun e => negb (is_set_installed e)) evs = true.
Proof.
  rewrite !forallb_forall. intros H e He. specialize (H e He).
  unfold is_record in H. now destruct (is_update_config e), (is_set_installed e).
Qed.

(** C5.  A run of [async_install] with a widget that returns [True] ends
    by handing the widget [set_installed(not has_no_uninstaller)], its one
    report of the run: [True] when no step was of the four kinds that set
    the flag, [False] when one was; in both cases the dependency is then in
    [Installed_Dependencies]. *)
Theorem async_install_reports_to_widget dep w s s' :
  async_install G C dep (Some w) s = (Ret true, s') ->
  exists m s1 h s2 evs,
    resolve_manifest G C dep s = (Ret (RManifest m), s1) /\
    run_steps G C (Some w) (Steps m) false s1 = (Ret h, s2) /\
    h = existsb no_uninstaller_step (Steps m) /\
    trace s' =
      (trace s ++ evs ++ [EvIdleAdd (WidgetSetInstalled (negb h))])%list /\
    forallb (fun e => negb (is_set_installed e)) evs = true /\
    In (dep_name dep) (Installed_Dependencies (config s')).
Proof.
  intros H.
  apply async_install_Ret_inv in H as (r & s1 & Hr & [[_ E] | H]);
    [discriminate |].
  destruct H as (m & h & s2 & -> & Hh & H & _).
  pose proof (quiet_resolve_manifest dep s) as Q1. rewrite Hr in Q1.
  pose proof (quiet_run_steps (Some w) (Steps m) false s1) as Q2.
  rewrite Hh in Q2.
  pose proof (quiet_step_trans _ _ _ Q1 Q2) as [_ (evs & Qt & Qe)].
  simpl in Qt.
  destruct (record_install_spec dep (Some w) m h s2)
    as (s3 & E & _ & Hd & _ & Ht).
  rewrite E in H. injection H as <-.
  exists m, s1, h, s2.
  exists (evs
          ++ (if mem (dep_name dep) (Installed_Dependencies (config s2))
              then [] else [EvUpdateConfig "Installed_Dependencies" ""])
          ++ (if Py.truthy (Uninstaller m) || h
              then [EvUpdateConfig (dep_name dep) "Uninstallers"] else [])
          ++ [EvIdleAdd DownloadEntryRemove])%list.
  repeat split.
  - exact Hr.
  - exact Hh.
  - now apply run_steps_flag in Hh.
  - rewrite Ht, Qt. now rewrite <- !app_assoc.
  - rewrite !forallb_app, (quiet_no_set_installed _ Qe).
    destruct (mem (dep_name dep) (Installed_Dependencies (config s2)));
      destruct (Py.truthy (Uninstaller m) || h); reflexivity.
  - rewrite Hd.
    destruct (mem (dep_name dep) (Installed_Dependencies (config s2))) eqn:Em.
    + now apply mem_In.
    + apply in_or_app. right. now left.
Qed.

(** ** Repeated installs *)




(** C2 (what the code does).  When resolution gives the not-found value,
    [async_install] runs no handler and writes nothing to the
    configuration: with a widget it hands it [set_installed(False)] and
    returns [False]; without one, reading [widget.set_installed] raises
    [AttributeError] and nothing is returned. *)
Theorem async_install_manifest_not_found dep s r s1 :
  resolve_manifest G C dep s = (Ret r, s1) ->
  not_found r = true ->
  (forall w,
      async_install G C dep (Some w) s =
      (Ret false,
       mkState (world s1) (config s)
         (trace s1 ++ [EvIdleAdd (WidgetSetInstalled false)])%list)) /\
  async_install G C dep None s = (Raise AttributeError, s1) /\
  config s1 = config s.
Proof.
  intros Hr Hn.
  pose proof (quiet_resolve_manifest dep s) as [Q _]. rewrite Hr in Q.
  simpl in Q. repeat split.
  - intros w. rewrite (async_install_not_found _ _ _ _ _ Hr Hn).
    now rewrite Q.
  - now rewrite (async_install_not_found _ _ _ _ _ Hr Hn).
  - exact Q.
Qed.

(** ** Dispatch *)

Lemma in_actions_install_exe_msi step :
  in_actions step ["install_exe"; "install_msi"] = true ->
  action step = "install_exe" \/ action step = "install_msi".
Proof.
  unfold in_actions, mem. cbn [existsb]. rewrite orb_false_r.
  intros H. apply orb_true_iff in H as [H | H]; apply String.eqb_eq in H;
    auto.
Qed.

Lemma run_step_install_exe_msi widget step h s :
  in_actions step ["install_exe"; "install_msi"] = true ->
  run_step G C widget step h s =
  match step_install_exe_msi G C (config s) step widget s with
  | (Ret _, s') => (Ret h, s')
  | (Raise e, s') => (Raise e, s')
  end.
Proof.
  intros H. apply in_actions_install_exe_msi in H as [Ha | Ha];
    decide_action Ha; unfold bind, get_config, ret;
    destruct (step_install_exe_msi G C (config s) step widget s)
      as [[v | e] s']; reflexivity.
Qed.

Lemma run_step_cab_extract widget step h s :
  action step = "cab_extract" ->
  run_step G C widget step h s =
  match step_cab_extract G C step widget s with
  | (Ret _, s') => (Ret true, s')
  | (Raise e, s') => (Raise e, s')
  end.
Proof.
  intros Ha. decide_action Ha. unfold bind, get_config, ret.
  destruct (step_cab_extract G C step widget s) as [[v | e] s'];
    reflexivity.
Qed.

(** ** Handlers that fail *)

Lemma step_install_exe_msi_download_fails config_ step widget s w1 :
  download C (url step) (file_name step) (rename step) (file_checksum step)
    (world s) = (Ret false, w1) ->
  step_install_exe_msi G C config_ step widget s =
  (Ret (Some false),
   mkState w1 (config s)
     (trace s
      ++ EvDownload (url step) (file_name step) (rename step)
           (file_checksum step)
         :: with_widget widget (EvBtnInstallSetSensitive true))%list).
Proof.
  intros Hd.
  unfold step_install_exe_msi, call_download, call, bind, if_widget, emit,
    ret, with_widget.
  rewrite Hd. destruct widget; simpl; [now rewrite <- app_assoc | reflexivity].
Qed.

Lemma step_cab_extract_staged_fails step widget s u w1 w2 :
  url step = Some u ->
  validate_url C u (world s) = (Ret false, w1) ->
  Py.startswith "temp/" u = true ->
  CabExtract_run C (staged_cab_path G step u) (Some (staged_cab_name step))
    w1 = (Ret false, w2) ->
  step_cab_extract G C step widget s =
  (Raise SystemExit,
   mkState w2 (config s)
     (trace s
      ++ EvValidateUrl u
         :: EvCabExtract (staged_cab_path G step u)
              (Some (staged_cab_name step))
         :: with_widget widget (EvIdleAdd WidgetSetErr))%list).
Proof.
  intros Hu Hv Hs Hc.
  unfold step_cab_extract, call_CabExtract, call, bind, subscript,
    if_widget, emit, ret, raise, with_widget.
  rewrite Hu. cbv beta iota. rewrite Hv. cbv beta iota. rewrite Hs.
  fold (staged_cab_path G step u). fold (staged_cab_name step).
  cbn [world config trace]. rewrite Hc.
  destruct widget; cbn [negb world config trace];
    now rewrite <- !app_assoc.
Qed.

(** The run up to a step: the manifest resolved, the steps before it
    done. *)
Lemma async_install_from_step dep widget s0 m s pre step post h1 s1 :
  resolve_manifest G C dep s0 = (Ret (RManifest m), s) ->
  Steps m = (pre ++ step :: post)%list ->
  run_steps G C widget pre false s = (Ret h1, s1) ->
  async_install G C dep widget s0 =
  match run_steps G C widget (step :: post) h1 s1 with
  | (Ret h, s2) => record_install dep widget m h s2
  | (Raise e, s2) => (Raise e, s2)
  end.
Proof.
  intros Hm Hs Hpre. rewrite (async_install_found _ _ _ _ _ Hm), Hs.
  now rewrite run_steps_app, Hpre.
Qed.

(** When the download of install_exe / install_msi fails, the handler
    re-enables the widget's install button and returns [False] to the
    executor, which goes on with the steps that follow, from the state the
    handler left, and then records the install. *)
Lemma async_install_after_failed_download
    dep widget s0 m s pre step post h1 s1 w1 :
  resolve_manifest G C dep s0 = (Ret (RManifest m), s) ->
  Steps m = (pre ++ step :: post)%list ->
  run_steps G C widget pre false s = (Ret h1, s1) ->
  in_actions step ["install_exe"; "install_msi"] = true ->
  download C (url step) (file_name step) (rename step) (file_checksum step)
    (world s1) = (Ret false, w1) ->
  let after :=
    mkState w1 (config s1)
      (trace s1
       ++ EvDownload (url step) (file_name step) (rename step)
            (file_checksum step)
          :: with_widget widget (EvBtnInstallSetSensitive true))%list in
  async_install G C dep widget s0 =
    match run_steps G C widget post h1 after with
    | (Ret h, s2) => record_install dep widget m h s2
    | (Raise e, s2) => (Raise e, s2)
    end /\
  (forall h s2,
      run_steps G C widget post h1 after = (Ret h, s2) ->
      fst (async_install G C dep widget s0) = Ret true /\
      In (dep_name dep)
        (Installed_Dependencies
           (config (snd (async_install G C dep widget s0))))).
Proof.
  intros Hm Hs Hpre Ha Hd after.
  assert (E : async_install G C dep widget s0 =
              match run_steps G C widget post h1 after with
              | (Ret h, s2) => record_install dep widget m h s2
              | (Raise e, s2) => (Raise e, s2)
              end).
  { rewrite (async_install_from_step _ _ _ _ _ _ _ _ _ _ Hm Hs Hpre).
    unfold run_steps at 1. cbn [for_in]. unfold bind at 1.
    rewrite (run_step_install_exe_msi _ _ _ _ Ha).
    now rewrite (step_install_exe_msi_download_fails _ _ _ _ _ Hd). }
  split; [exact E |]. intros h s2 Hpost. rewrite E, Hpost.
  destruct (record_install_spec dep widget m h s2) as (s3 & E3 & _ & Hd3 & _).
  rewrite E3. simpl. split; [reflexivity |]. rewrite Hd3.
  destruct (mem (dep_name dep) (Installed_Dependencies (config s2))) eqn:Em.
  - now apply mem_In.
  - apply in_or_app. right. now left.
Qed.

(** C7 (as amended).  In the cab_extract handler, when the step's url is
    not a validated URL but a path staged under [temp/] and the extraction
    fails, the handler marks the widget in error and calls [exit()]:
    [SystemExit] leaves the handler, the loop over the steps and
    [async_install]; no later step runs and nothing is recorded. *)
Theorem async_install_staged_cab_failure_exits
    dep widget s0 m s pre step post h1 s1 u w1 w2 :
  resolve_manifest G C dep s0 = (Ret (RManifest m), s) ->
  Steps m = (pre ++ step :: post)%list ->
  run_steps G C widget pre false s = (Ret h1, s1) ->
  action step = "cab_extract" ->
  url step = Some u ->
  validate_url C u (world s1) = (Ret false, w1) ->
  Py.startswith "temp/" u = true ->
  CabExtract_run C (staged_cab_path G step u) (Some (staged_cab_name step))
    w1 = (Ret false, w2) ->
  async_install G C dep widget s0 =
  (Raise SystemExit,
   mkState w2 (config s0)
     (trace s1
      ++ EvValidateUrl u
         :: EvCabExtract (staged_cab_path G step u)
              (Some (staged_cab_name step))
         :: with_widget widget (EvIdleAdd WidgetSetErr))%list).
Proof.
  intros Hm Hs Hpre Ha Hu Hv Ht Hc.
  rewrite (async_install_from_step _ _ _ _ _ _ _ _ _ _ Hm Hs Hpre).
  unfold run_steps. cbn [for_in]. unfold bind at 1.
  rewrite (run_step_cab_extract _ _ _ _ Ha).
  rewrite (step_cab_extract_staged_fails _ _ _ _ _ _ Hu Hv Ht Hc).
  pose proof (quiet_resolve_manifest dep s0) as [Q1 _]. rewrite Hm in Q1.
  pose proof (quiet_run_steps widget pre false s) as [Q2 _].
  rewrite Hpre in Q2. simpl in Q1, Q2. now rewrite Q2, Q1.
Qed.

(** ** Manifest resolution *)

Lemma get_dependency_offline n c plain s w1 :
  check_connection C (world s) = (false, w1) ->
  get_dependency G C n c plain s =
  (Ret RFalse, mkState w1 (config s) (trace s ++ [EvCheckConnection])%list).
Proof.
  intros Hc. unfold get_dependency, bind. now rewrite Hc.
Qed.

(** With a connection, the result is that of the guarded block, any
    exception of which is turned into [False]. *)
Lemma get_dependency_online n c plain s w1 :
  check_connection C (world s) = (true, w1) ->
  get_dependency G C n c plain s =
  try_except
    (body <- call (EvUrlopen (manifest_url G n c))
               (urlopen_read C (manifest_url G n c)) ;;
     if plain then
       text <- lift (decode_utf8 C body) ;; ret (RPlain text)
     else
       doc <- lift (yaml_safe_load C body) ;;
       ret (match doc with Some m => RManifest m | None => RNone end))
    (fun _ => true)
    (emit (EvLogError ("Cannot fetch manifest for " ++ n ++ ".")) ;;;
     ret RFalse)
    (mkState w1 (config s) (trace s ++ [EvCheckConnection])%list).
Proof.
  intros Hc. unfold get_dependency, bind at 1. now rewrite Hc.
Qed.

Lemma get_dependency_returns n c plain s :
  exists v, fst (get_dependency G C n c plain s) = Ret v.
Proof.
  destruct (check_connection C (world s)) as [[|] w1] eqn:Hc.
  - rewrite (get_dependency_online _ _ _ _ _ Hc).
    unfold try_except.
    match goal with
    | |- context [match ?b ?st with _ => _ end] =>
        destruct (b st) as [[v | e] s2]
    end; simpl; eauto.
  - rewrite (get_dependency_offline _ _ _ _ _ Hc). simpl. eauto.
Qed.

(** C8.  [get_dependency] never raises.  It returns [False] when there is
    no connection, when opening or reading the URL raises, when the YAML
    parser raises and, with [plain], when decoding raises: one value
    whatever the cause.  With [plain] and a body fetched and decoded, it
    returns the decoded text. *)
Theorem get_dependency_not_found_or_text n c plain s :
  (exists v, fst (get_dependency G C n c plain s) = Ret v) /\
  (fst (check_connection C (world s)) = false ->
   fst (get_dependency G C n c plain s) = Ret RFalse) /\
  (forall w1,
      check_connection C (world s) = (true, w1) ->
      (forall e w2,
          urlopen_read C (manifest_url G n c) w1 = (Raise e, w2) ->
          fst (get_dependency G C n c plain s) = Ret RFalse) /\
      (forall body w2,
          urlopen_read C (manifest_url G n c) w1 = (Ret body, w2) ->
          (forall e,
              plain = false -> yaml_safe_load C body = Raise e ->
              fst (get_dependency G C n c plain s) = Ret RFalse) /\
          (forall e,
              plain = true -> decode_utf8 C body = Raise e ->
              fst (get_dependency G C n c plain s) = Ret RFalse) /\
          (forall text,
              plain = true -> decode_utf8 C body = Ret text ->
              fst (get_dependency G C n c plain s) = Ret (RPlain text)))).
Proof.
  split; [apply get_dependency_returns |]. split.
  - intros Hc. destruct (check_connection C (world s)) as [b w1] eqn:E.
    simpl in Hc. subst b. now rewrite (get_dependency_offline _ _ _ _ _ E).
  - intros w1 Hc. rewrite (get_dependency_online _ _ _ _ _ Hc).
    unfold try_except, bind, call, lift, emit, ret, raise.
    cbn [world config trace]. split.
    + intros e w2 Hu. now rewrite Hu.
    + intros body w2 Hu. rewrite Hu. repeat split.
      * intros e -> Hy. now rewrite Hy.
      * intros e -> Hd. now rewrite Hd.
      * intros text -> Hd. now rewrite Hd.
Qed.

(** ** Copying DLLs *)


(** A loop of copies issues them in the order of the list, up to the first
    that raises. *)
Lemma for_in_copyfile (dst : string -> string) fs s :
  exists k,
    trace (snd (for_in fs tt (fun fg _ => call_copyfile C fg (dst fg)) s)) =
      (trace s ++ map (fun fg => EvCopyfile fg (dst fg)) (firstn k fs))%list /\
    (forall v,
        fst (for_in fs tt (fun fg _ => call_copyfile C fg (dst fg)) s)
          = Ret v ->
        k = length fs).
Proof.
  revert s. induction fs as [| fg rest IH]; intros s.
  - exists 0. simpl. split; [now rewrite app_nil_r | reflexivity].
  - cbn [for_in]. unfold bind.
    assert (Ec : call_copyfile C fg (dst fg) s =
                 let (r, w) := shutil_copyfile C fg (dst fg) (world s) in
                 (r, mkState w (config s)
                       (trace s ++ [EvCopyfile fg (dst fg)])%list))
      by reflexivity.
    rewrite !Ec. clear Ec.
    destruct (shutil_copyfile C fg (dst fg) (world s)) as [[[] | e] w1].
    + destruct (IH (mkState w1 (config s)
                      (trace s ++ [EvCopyfile fg (dst fg)])%list))
        as (k & Ht & Hk).
      exists (S k). split.
      * rewrite Ht. cbn [firstn map trace]. now rewrite <- app_assoc.
      * intros v Hv. cbn [length]. f_equal. eapply Hk, Hv.
    + exists 1. split; [reflexivity | discriminate].
Qed.



End Properties.

(** * Runs on scripted collaborators *)

(** C1, an instance: the archive's download fails and the manifest declares
    an uninstaller; [NO_UNINSTALLER] is recorded. *)
Lemma async_install_records_NO_UNINSTALLER_witness :
  resolved (downloads_fail zip_with_uninstaller)
    = (Ret (RManifest zip_with_uninstaller),
       snd (resolved (downloads_fail zip_with_uninstaller))) /\
  existsb no_uninstaller_step (Steps zip_with_uninstaller) = true /\
  run (downloads_fail zip_with_uninstaller) None
    = (Ret true, snd (run (downloads_fail zip_with_uninstaller) None)) /\
  Uninstallers (config (snd (run (downloads_fail zip_with_uninstaller) None)))
    !! "vcredist2019" = Some NO_UNINSTALLER.
Proof.
  assert (H1 : resolved (downloads_fail zip_with_uninstaller)
               = (Ret (RManifest zip_with_uninstaller),
                  snd (resolved (downloads_fail zip_with_uninstaller))))
    by (vm_compute; reflexivity).
  assert (H2 : existsb no_uninstaller_step (Steps zip_with_uninstaller) = true)
    by reflexivity.
  assert (H3 : run (downloads_fail zip_with_uninstaller) None
               = (Ret true,
                  snd (run (downloads_fail zip_with_uninstaller) None)))
    by (vm_compute; reflexivity).
  split; [exact H1 |]. split; [exact H2 |]. split; [exact H3 |].
  exact (async_install_records_NO_UNINSTALLER test_globals
           (scripted (downloads_fail zip_with_uninstaller)) vcredist None
           (start fresh_bottle) zip_with_uninstaller _ true _ H1 H2 H3).
Defined.

(** C1, as stated, fails: the manifest has a cab_extract step, the cabinet
    is staged under [temp/] and its extraction fails; [exit()] ends the run
    and [Uninstallers] holds no reference for the dependency. *)
Lemma staged_cab_failure_records_nothing :
  existsb no_uninstaller_step (Steps cab_with_uninstaller) = true /\
  fst (resolved (cabextract_fails cab_with_uninstaller))
    = Ret (RManifest cab_with_uninstaller) /\
  fst (run (cabextract_fails cab_with_uninstaller) (Some GtkWidget))
    = Raise SystemExit /\
  Uninstallers
    (config (snd (run (cabextract_fails cab_with_uninstaller) (Some GtkWidget))))
    !! "vcredist2019" <> Some NO_UNINSTALLER.
Proof.
  split; [reflexivity |]. split; [vm_compute; reflexivity |].
  split; [vm_compute; reflexivity |]. vm_compute. discriminate.
Qed.

(** C2, at the failing input: no network, no widget.  Nothing is written,
    and [AttributeError] is raised where [False] should be returned. *)
Lemma async_install_manifest_not_found_witness :
  resolved offline = (Ret RFalse, snd (resolved offline)) /\
  not_found RFalse = true /\
  run offline None = (Raise AttributeError, snd (resolved offline)) /\
  config (snd (run offline None)) = fresh_bottle.
Proof.
  assert (H1 : resolved offline = (Ret RFalse, snd (resolved offline)))
    by (vm_compute; reflexivity).
  assert (H2 : not_found RFalse = true) by reflexivity.
  destruct (async_install_manifest_not_found test_globals (scripted offline)
              vcredist (start fresh_bottle) RFalse _ H1 H2)
    as (_ & Hnone & Hcfg).
  split; [exact H1 |]. split; [exact H2 |]. split; [exact Hnone |].
  unfold run. rewrite Hnone. exact Hcfg.
Defined.



(** C5, an instance: an archive is extracted; the widget is told
    [set_installed(False)] and the dependency is recorded. *)
Lemma async_install_reports_to_widget_witness :
  run (all_fine zip_with_uninstaller) (Some GtkWidget)
    = (Ret true, snd (run (all_fine zip_with_uninstaller) (Some GtkWidget))) /\
  In "vcredist2019"
    (Installed_Dependencies
       (config (snd (run (all_fine zip_with_uninstaller) (Some GtkWidget))))).
Proof.
  assert (H1 : run (all_fine zip_with_uninstaller) (Some GtkWidget)
               = (Ret true,
                  snd (run (all_fine zip_with_uninstaller) (Some GtkWidget))))
    by (vm_compute; reflexivity).
  split; [exact H1 |].
  destruct (async_install_reports_to_widget test_globals
              (scripted (all_fine zip_with_uninstaller)) vcredist GtkWidget
              (start fresh_bottle) _ H1)
    as (m & s1 & h & s2 & evs & _ & _ & _ & _ & _ & Hin).
  exact Hin.
Defined.

(** C6, an instance: an installer alone, no uninstaller declared. *)
Lemma async_install_no_uninstaller_entry_witness :
  resolved (all_fine exe_without_uninstaller)
    = (Ret (RManifest exe_without_uninstaller),
       snd (resolved (all_fine exe_without_uninstaller))) /\
  Uninstaller exe_without_uninstaller = None /\
  existsb no_uninstaller_step (Steps exe_without_uninstaller) = false /\
  Uninstallers (config (snd (run (all_fine exe_without_uninstaller) None)))
    = Uninstallers fresh_bottle.
Proof.
  assert (H1 : resolved (all_fine exe_without_uninstaller)
               = (Ret (RManifest exe_without_uninstaller),
                  snd (resolved (all_fine exe_without_uninstaller))))
    by (vm_compute; reflexivity).
  assert (H2 : Uninstaller exe_without_uninstaller = None) by reflexivity.
  assert (H3 : existsb no_uninstaller_step (Steps exe_without_uninstaller)
               = false) by reflexivity.
  split; [exact H1 |]. split; [exact H2 |]. split; [exact H3 |].
  exact (proj1 (async_install_no_uninstaller_entry test_globals
                  (scripted (all_fine exe_without_uninstaller)) vcredist None
                  (start fresh_bottle) exe_without_uninstaller _ H1 H2 H3)).
Defined.

(** C7, an instance: a staged cabinet whose extraction fails, a registry
    step after it. *)
Lemma async_install_staged_cab_failure_exits_witness :
  resolved (cabextract_fails cab_then_key)
    = (Ret (RManifest cab_then_key), snd (resolved (cabextract_fails cab_then_key)))
  /\
  Steps cab_then_key = ([] ++ staged_cab :: [a_register_key])%list /\
  run_steps test_globals (scripted (cabextract_fails cab_then_key))
    (Some GtkWidget) [] false (snd (resolved (cabextract_fails cab_then_key)))
    = (Ret false, snd (resolved (cabextract_fails cab_then_key))) /\
  action staged_cab = "cab_extract" /\
  url staged_cab = Some "temp/pack" /\
  validate_url (scripted (cabextract_fails cab_then_key)) "temp/pack"
    (world (snd (resolved (cabextract_fails cab_then_key)))) = (Ret false, tt) /\
  Py.startswith "temp/" "temp/pack" = true /\
  CabExtract_run (scripted (cabextract_fails cab_then_key))
    (staged_cab_path test_globals staged_cab "temp/pack")
    (Some (staged_cab_name staged_cab)) tt = (Ret false, tt) /\
  fst (run (cabextract_fails cab_then_key) (Some GtkWidget)) = Raise SystemExit.
Proof.
  assert (H1 : resolved (cabextract_fails cab_then_key)
               = (Ret (RManifest cab_then_key),
                  snd (resolved (cabextract_fails cab_then_key))))
    by (vm_compute; reflexivity).
  assert (H2 : Steps cab_then_key = ([] ++ staged_cab :: [a_register_key])%list)
    by reflexivity.
  assert (H3 : run_steps test_globals (scripted (cabextract_fails cab_then_key))
                 (Some GtkWidget) [] false
                 (snd (resolved (cabextract_fails cab_then_key)))
               = (Ret false, snd (resolved (cabextract_fails cab_then_key))))
    by reflexivity.
  assert (H4 : action staged_cab = "cab_extract") by reflexivity.
  assert (H5 : url staged_cab = Some "temp/pack") by reflexivity.
  assert (H6 : validate_url (scripted (cabextract_fails cab_then_key))
                 "temp/pack"
                 (world (snd (resolved (cabextract_fails cab_then_key))))
               = (Ret false, tt)) by reflexivity.
  assert (H7 : Py.startswith "temp/" "temp/pack" = true) by reflexivity.
  assert (H8 : CabExtract_run (scripted (cabextract_fails cab_then_key))
                 (staged_cab_path test_globals staged_cab "temp/pack")
                 (Some (staged_cab_name staged_cab)) tt = (Ret false, tt))
    by reflexivity.
  split; [exact H1 |]. split; [exact H2 |]. split; [exact H3 |].
  split; [exact H4 |]. split; [exact H5 |]. split; [exact H6 |].
  split; [exact H7 |]. split; [exact H8 |].
  exact (f_equal fst
           (async_install_staged_cab_failure_exits test_globals
              (scripted (cabextract_fails cab_then_key)) vcredist
              (Some GtkWidget) (start fresh_bottle) cab_then_key _ []
              staged_cab [a_register_key] false _ "temp/pack" tt tt
              H1 H2 H3 H4 H5 H6 H7 H8)).
Defined.

(** C7, as stated, fails: after the failed extraction of the staged cabinet
    the loop does not go on to the registry step, which runs when the
    extraction succeeds; the run ends with [SystemExit] on the handler's
    last call. *)
Lemma staged_cab_failure_stops_the_loop :
  Steps cab_then_key = [staged_cab; a_register_key] /\
  fst (run (cabextract_fails cab_then_key) (Some GtkWidget))
    = Raise SystemExit /\
  trace (snd (run (cabextract_fails cab_then_key) (Some GtkWidget))) =
    [EvNewDownload "vcredist2019";
     EvLogInfo "Installing dependency [vcredist2019] in bottle [test].";
     EvCheckConnection;
     EvUrlopen "https://repo/dependencies/Essentials/vcredist2019.yml";
     EvValidateUrl "temp/pack";
     EvCabExtract "/tmp/bottles/pack/a.cab" (Some "a");
     EvIdleAdd WidgetSetErr] /\
  trace (snd (run (staged_cab_extracts cab_then_key) (Some GtkWidget))) =
    [EvNewDownload "vcredist2019";
     EvLogInfo "Installing dependency [vcredist2019] in bottle [test].";
     EvCheckConnection;
     EvUrlopen "https://repo/dependencies/Essentials/vcredist2019.yml";
     EvValidateUrl "temp/pack";
     EvCabExtract "/tmp/bottles/pack/a.cab" (Some "a");
     EvRegAdd (Some "HKEY_CURRENT_USER\Software\Test") (Some "v") (Some "d")
       (KeyTypeGiven (Some "REG_SZ"));
     EvUpdateConfig "Installed_Dependencies" "";
     EvUpdateConfig "vcredist2019" "Uninstallers";
     EvIdleAdd DownloadEntryRemove;
     EvIdleAdd (WidgetSetInstalled false)].
Proof.
  split; [reflexivity |]. split; [vm_compute; reflexivity |].
  split; vm_compute; reflexivity.
Qed.

(** C8, instances: no network gives [False]; with [plain] the fetched text
    comes back. *)
Lemma get_dependency_not_found_or_text_witness :
  (fst (check_connection (scripted offline) (world (start fresh_bottle)))
     = false /\
   fst (get_dependency test_globals (scripted offline) "vcredist2019"
          "Essentials" false (start fresh_bottle)) = Ret RFalse) /\
  (check_connection (scripted (all_fine exe_with_uninstaller))
     (world (start fresh_bottle)) = (true, tt) /\
   urlopen_read (scripted (all_fine exe_with_uninstaller))
     (manifest_url test_globals "vcredist2019" "Essentials") tt
     = (Ret "Steps: []", tt) /\
   decode_utf8 (scripted (all_fine exe_with_uninstaller)) "Steps: []"
     = Ret "Steps: []" /\
   fst (get_dependency test_globals (scripted (all_fine exe_with_uninstaller))
          "vcredist2019" "Essentials" true (start fresh_bottle))
     = Ret (RPlain "Steps: []")).
Proof.
  split.
  - assert (H1 : fst (check_connection (scripted offline)
                        (world (start fresh_bottle))) = false) by reflexivity.
    split; [exact H1 |].
    exact (proj1 (proj2 (get_dependency_not_found_or_text test_globals
                           (scripted offline) "vcredist2019" "Essentials"
                           false (start fresh_bottle))) H1).
  - assert (H1 : check_connection (scripted (all_fine exe_with_uninstaller))
                   (world (start fresh_bottle)) = (true, tt)) by reflexivity.
    assert (H2 : urlopen_read (scripted (all_fine exe_with_uninstaller))
                   (manifest_url test_globals "vcredist2019" "Essentials") tt
                 = (Ret "Steps: []", tt)) by reflexivity.
    assert (H3 : decode_utf8 (scripted (all_fine exe_with_uninstaller))
                   "Steps: []" = Ret "Steps: []") by reflexivity.
    split; [exact H1 |]. split; [exact H2 |]. split; [exact H3 |].
    exact (proj2 (proj2 (proj2 (proj2 (proj2
             (get_dependency_not_found_or_text test_globals
                (scripted (all_fine exe_with_uninstaller)) "vcredist2019"
                "Essentials" true (start fresh_bottle))) tt H1)
             "Steps: []" tt H2)) "Steps: []" eq_refl H3).
Defined.

(** C9, an instance: both steps fail, on their downloads, and [True] is
    returned all the same. *)
Lemma async_install_returns_True_witness :
  resolved (downloads_fail exe_then_zip)
    = (Ret (RManifest exe_then_zip), snd (resolved (downloads_fail exe_then_zip)))
  /\
  fst (run (downloads_fail exe_then_zip) None) = Ret true.
Proof.
  assert (H1 : resolved (downloads_fail exe_then_zip)
               = (Ret (RManifest exe_then_zip),
                  snd (resolved (downloads_fail exe_then_zip))))
    by (vm_compute; reflexivity).
  split; [exact H1 |].
  refine (proj1 (async_install_returns_True test_globals
                   (scripted (downloads_fail exe_then_zip)) vcredist None
                   (start fresh_bottle) exe_then_zip _ H1) true _ _).
  vm_compute. reflexivity.
Defined.

(** C9, as stated, fails: the manifest is resolved and [True] is not
    returned, when the extraction of a staged cabinet fails ([SystemExit])
    and when a font to install is missing ([FileNotFoundError]). *)
Lemma resolved_manifest_without_True :
  (fst (resolved (cabextract_fails cab_with_uninstaller))
     = Ret (RManifest cab_with_uninstaller) /\
   fst (run (cabextract_fails cab_with_uninstaller) None) = Raise SystemExit) /\
  (fst (resolved (all_fine fonts_only)) = Ret (RManifest fonts_only) /\
   fst (run (all_fine fonts_only) None) = Raise FileNotFoundError).
Proof.
  split; split; vm_compute; reflexivity.
Qed.

(** * The catalog *)

Section CatalogProperties.
Context {W V : Type}.
Variable dependencies_index : string.
Variable C : Collaborators W.
Variable yaml_safe_load_index : string -> Outcome (option (gmap string V)).

Lemma for_in_pure {A S} (f : A -> S -> S) (xs : list A) (acc : S)
    (s : State W) :
  for_in xs acc (fun x a => ret (f x a)) s
  = (Ret (fold_left (fun a x => f x a) xs acc), s).
Proof.
  revert acc. induction xs as [| x rest IH]; intros acc; [reflexivity |].
  cbn [for_in fold_left]. unfold bind, ret at 1. apply IH.
Qed.

(** Inserting the pairs of a list without repeated keys, first pair first,
    gives the map of the list over what was there. *)
Lemma fold_left_insert_lookup (l : list (string * V)) (acc : gmap string V) k :
  NoDup (l.*1) ->
  fold_left (fun a p => <[fst p := snd p]> a) l acc !! k =
  match (list_to_map l : gmap string V) !! k with
  | Some v => Some v
  | None => acc !! k
  end.
Proof.
  revert acc. induction l as [| [k0 v0] l IH]; intros acc Hnd.
  - simpl. now rewrite lookup_empty.
  - simpl in Hnd. apply NoDup_cons in Hnd as [Hk0 Hnd]. cbn [fold_left].
    rewrite (IH _ Hnd). cbn [list_to_map foldr fst snd].
    destruct (decide (k0 = k)) as [-> | Hne].
    + rewrite lookup_insert_eq.
      now rewrite (not_elem_of_list_to_map_1 _ _ Hk0), lookup_insert_eq.
    + now rewrite !lookup_insert_ne by exact Hne.
Qed.

Lemma fold_left_insert_map_to_list (d : gmap string V) :
  fold_left (fun a p => <[fst p := snd p]> a) (map_to_list d) ∅ = d.
Proof.
  apply map_eq. intros k.
  rewrite fold_left_insert_lookup by apply NoDup_fst_map_to_list.
  rewrite list_to_map_to_list, lookup_empty. now destruct (d !! k).
Qed.

(** X1.  [fetch_catalog] returns the empty dict when there is no connection
    and when opening, reading or parsing the index raises, whatever is
    raised; without a connection the index is not even requested. *)
Theorem fetch_catalog_empty_on_failure s :
  (forall w1,
      check_connection C (world s) = (false, w1) ->
      fetch_catalog dependencies_index C yaml_safe_load_index s
      = (Ret ∅, mkState w1 (config s) (trace s ++ [EvCheckConnection])%list))
  /\
  (forall w1,
      check_connection C (world s) = (true, w1) ->
      (forall e w2,
          urlopen_read C dependencies_index w1 = (Raise e, w2) ->
          fst (fetch_catalog dependencies_index C yaml_safe_load_index s)
          = Ret ∅) /\
      (forall body w2 e,
          urlopen_read C dependencies_index w1 = (Ret body, w2) ->
          yaml_safe_load_index body = Raise e ->
          fst (fetch_catalog dependencies_index C yaml_safe_load_index s)
          = Ret ∅)).
Proof.
  split.
  - intros w1 Hc. unfold fetch_catalog, bind, call_check_connection.
    now rewrite Hc.
  - intros w1 Hc. split.
    + intros e w2 Hu.
      unfold fetch_catalog, bind, call_check_connection, try_except, call.
      rewrite Hc. cbn [negb world config trace]. now rewrite Hu.
    + intros body w2 e Hu Hy.
      unfold fetch_catalog, bind, call_check_connection, try_except, call,
        lift.
      rewrite Hc. cbn [negb world config trace]. rewrite Hu, Hy.
      reflexivity.
Qed.

(** X2.  When the index is fetched and parsed, [fetch_catalog] returns a
    dict equal to the parsed mapping, entry for entry; when the document is
    empty, so that the parser gives [None], the loop over [index.items()]
    raises [AttributeError], which the guard above it does not cover. *)
Theorem fetch_catalog_copies_index s w1 body w2 index :
  check_connection C (world s) = (true, w1) ->
  urlopen_read C dependencies_index w1 = (Ret body, w2) ->
  yaml_safe_load_index body = Ret index ->
  fst (fetch_catalog dependencies_index C yaml_safe_load_index s) =
  match index with
  | Some d => Ret d
  | None => Raise AttributeError
  end.
Proof.
  intros Hc Hu Hy.
  unfold fetch_catalog, bind at 1, call_check_connection.
  rewrite Hc. cbn [negb].
  unfold bind at 1, try_except, bind at 1, call.
  cbn [world config trace]. rewrite Hu.
  unfold bind at 1, lift. rewrite Hy. unfold ret at 1 2.
  destruct index as [d |].
  - unfold bind, ret at 1. rewrite for_in_pure. cbn [fst].
    now rewrite fold_left_insert_map_to_list.
  - reflexivity.
Qed.

End CatalogProperties.

(** * More on the executor *)

Section Avoiding.
Context {W : Type}.
Variable P : Event -> bool.

Lemma avoids_ret {A} (a : A) : avoids P (ret (W := W) a).
Proof. intros s. exists []. now rewrite app_nil_r. Qed.

Lemma avoids_raise {A} e : avoids P (raise (W := W) (A := A) e).
Proof. intros s. exists []. now rewrite app_nil_r. Qed.

Lemma avoids_seq {A B} (m : M W A) (s : State W) (k : State W -> Outcome B * State W) :
  avoids P m ->
  (forall s1, exists evs,
      trace (snd (k s1)) = (trace s1 ++ evs)%list /\
      forallb (fun e => negb (P e)) evs = true) ->
  exists evs,
    trace (snd (k (snd (m s)))) = (trace s ++ evs)%list /\
    forallb (fun e => negb (P e)) evs = true.
Proof.
  intros Hm Hk. destruct (Hm s) as (e1 & Ht1 & Hp1).
  destruct (Hk (snd (m s))) as (e2 & Ht2 & Hp2).
  exists (e1 ++ e2)%list. split.
  - now rewrite Ht2, Ht1, app_assoc.
  - now rewrite forallb_app, Hp1, Hp2.
Qed.

Lemma avoids_bind {A B} (m : M W A) (k : A -> M W B) :
  avoids P m -> (forall a, avoids P (k a)) -> avoids P (bind m k).
Proof.
  intros Hm Hk s. unfold bind.
  destruct (m s) as [[a | e] s1] eqn:E.
  - pose proof (avoids_seq m s (k a) Hm (Hk a)) as H. now rewrite E in H.
  - specialize (Hm s). now rewrite E in Hm.
Qed.

Lemma avoids_try_except {A} (body handler : M W A) catches :
  avoids P body -> avoids P handler ->
  avoids P (try_except body catches handler).
Proof.
  intros Hb Hh s. unfold try_except.
  destruct (body s) as [[a | e] s1] eqn:E.
  - specialize (Hb s). now rewrite E in Hb.
  - destruct (catches e).
    + pose proof (avoids_seq body s handler Hb Hh) as H. now rewrite E in H.
    + specialize (Hb s). now rewrite E in Hb.
Qed.

Lemma avoids_emit e : P e = false -> avoids P (emit (W := W) e).
Proof. intros He s. exists [e]. simpl. now rewrite He. Qed.

Lemma avoids_call {R} e (f : W -> Outcome R * W) :
  P e = false -> avoids P (call e f).
Proof.
  intros He s. unfold call. destruct (f (world s)) as [r w].
  exists [e]. simpl. now rewrite He.
Qed.

Lemma avoids_query {R} (f : W -> R) : avoids P (query f).
Proof. intros s. exists []. now rewrite app_nil_r. Qed.

Lemma avoids_get_config : avoids P (get_config (W := W)).
Proof. intros s. exists []. now rewrite app_nil_r. Qed.

Lemma avoids_subscript {A} k (field : option A) :
  avoids P (subscript (W := W) k field).
Proof. destruct field; [apply avoids_ret | apply avoids_raise]. Qed.

Lemma avoids_not_None {A} (field : option A) :
  avoids P (not_None (W := W) field).
Proof. destruct field; [apply avoids_ret | apply avoids_raise]. Qed.

Lemma avoids_for_in {A S} (xs : list A) (body : A -> S -> M W S) :
  (forall x acc, avoids P (body x acc)) ->
  forall acc, avoids P (for_in xs acc body).
Proof.
  intros Hb. induction xs as [| x rest IH]; intros acc; simpl.
  - apply avoids_ret.
  - apply avoids_bind; [apply Hb | intros a; apply IH].
Qed.

Lemma avoids_if_widget widget (body : M W unit) :
  avoids P body -> avoids P (if_widget widget body).
Proof. intros Hb. destruct widget; [exact Hb | apply avoids_ret]. Qed.

Lemma avoids_filter evs :
  forallb (fun e => negb (P e)) evs = true -> List.filter P evs = [].
Proof.
  induction evs as [| e rest IH]; [reflexivity |]. simpl.
  intros H. apply andb_true_iff in H as [He Hr].
  destruct (P e); [discriminate | now apply IH].
Qed.

End Avoiding.

(** Breaks a computation into its parts, as [quiet_tac] does. *)
Ltac avoids_tac :=
  repeat first
    [ progress intros
    | apply avoids_bind
    | apply avoids_try_except
    | apply avoids_for_in
    | apply avoids_if_widget
    | apply avoids_emit; reflexivity
    | apply avoids_call; reflexivity
    | apply avoids_ret
    | apply avoids_raise
    | apply avoids_query
    | apply avoids_get_config
    | apply avoids_subscript
    | apply avoids_not_None
    | match goal with
      | |- avoids _ (if ?b then _ else _) => destruct b
      | |- avoids _ (match ?o with _ => _ end) => destruct o
      end ].

Ltac unfold_handlers :=
  unfold step_delete_sys32_dlls, step_install_exe_msi,
    step_uninstall, step_cab_extract, step_archive_extract,
    step_install_fonts, step_copy_dll, step_override_dll,
    step_set_register_key, step_register_font, call_download,
    call_CabExtract, call_copyfile, call_reg_add.

Section Executor.
Context {W : Type}.
Variable G : Globals.
Variable C : Collaborators W.

Lemma avoids_get_dependency P n c plain :
  P EvCheckConnection = false ->
  P (EvUrlopen (manifest_url G n c)) = false ->
  P (EvLogError ("Cannot fetch manifest for " ++ n ++ ".")) = false ->
  avoids P (get_dependency G C n c plain).
Proof.
  intros H1 H2 H3. unfold get_dependency. apply avoids_bind.
  - intros s. destruct (check_connection C (world s)) as [b w].
    exists [EvCheckConnection]. simpl. now rewrite H1.
  - intros [|]; [| apply avoids_ret].
    apply avoids_try_except.
    + apply avoids_bind; [now apply avoids_call |]. intros body.
      destruct plain; unfold lift;
        [destruct (decode_utf8 C body) | destruct (yaml_safe_load C body)];
        avoids_tac.
    + apply avoids_bind; [now apply avoids_emit | intros; apply avoids_ret].
Qed.

Lemma avoids_resolve_manifest P dep :
  (forall e, P e = true -> is_download_entry_remove e = true
                           \/ is_run_executable e = true) ->
  avoids P (resolve_manifest G C dep).
Proof.
  intros HP.
  assert (Hno : forall e, is_download_entry_remove e = false ->
                          is_run_executable e = false -> P e = false).
  { intros e H1 H2. destruct (P e) eqn:E; [| reflexivity].
    destruct (HP e E); congruence. }
  unfold resolve_manifest.
  apply avoids_bind; [apply avoids_get_config | intros config_].
  apply avoids_bind.
  { destruct (Versioning config_); [| apply avoids_ret].
    apply avoids_call. now apply Hno. }
  intros _. apply avoids_bind; [apply avoids_call; now apply Hno |].
  intros _. apply avoids_bind; [apply avoids_emit; now apply Hno |].
  intros _. apply avoids_get_dependency; now apply Hno.
Qed.

Lemma avoids_run_step_download_entry_remove widget step h :
  avoids is_download_entry_remove (run_step G C widget step h).
Proof. unfold run_step. unfold_handlers. avoids_tac. Qed.

Lemma avoids_run_steps_download_entry_remove widget steps h :
  avoids is_download_entry_remove (run_steps G C widget steps h).
Proof.
  unfold run_steps. apply avoids_for_in. intros.
  apply avoids_run_step_download_entry_remove.
Qed.

(** ** Steps of no known kind *)

Lemma run_step_unknown_action widget step h s :
  in_actions step known_actions = false ->
  run_step G C widget step h s = (Ret h, s).
Proof.
  intros H. unfold in_actions, mem, known_actions in H. cbn [existsb] in H.
  repeat (apply orb_false_iff in H as [? H]).
  unfold run_step, in_actions, mem. cbn [existsb].
  repeat match goal with
         | Hx : _ = false |- _ => rewrite Hx; clear Hx
         end.
  reflexivity.
Qed.

(** X3.  A step whose action is none of those the loop tests for is
    skipped without a trace: a list of such steps, the empty list among
    them, leaves the state and [has_no_uninstaller] as they were, and
    raises nothing. *)
Theorem run_steps_unknown_actions widget steps h s :
  forallb (fun step => negb (in_actions step known_actions)) steps = true ->
  run_steps G C widget steps h s = (Ret h, s).
Proof.
  unfold run_steps. induction steps as [| step rest IH]; intros H.
  - reflexivity.
  - simpl in H. apply andb_true_iff in H as [Hs Hr].
    apply negb_true_iff in Hs. cbn [for_in]. unfold bind.
    rewrite (run_step_unknown_action _ _ _ _ Hs). now apply IH.
Qed.

(** ** What is recorded *)

(** X4.  When the resolved manifest declares a non-empty [Uninstaller] and
    has no step of the four kinds that set [has_no_uninstaller], a run of
    [async_install] that returns has recorded the declared value as the
    dependency's reference in [Uninstallers], over any earlier one. *)
Theorem async_install_records_declared_uninstaller
    dep widget s m s1 u b s' :
  resolve_manifest G C dep s = (Ret (RManifest m), s1) ->
  Uninstaller m = Some u ->
  u <> "" ->
  existsb no_uninstaller_step (Steps m) = false ->
  async_install G C dep widget s = (Ret b, s') ->
  Uninstallers (config s') !! dep_name dep = Some u.
Proof.
  intros Hm Hu Hne Hs H. rewrite (async_install_found _ _ _ _ _ _ _ Hm) in H.
  destruct (run_steps G C widget (Steps m) false s1) as [[h | e] s2] eqn:Er;
    [| discriminate].
  apply run_steps_flag in Er. rewrite Hs in Er. simpl in Er. subst h.
  destruct (record_install_spec dep widget m false s2)
    as (s3 & E & _ & _ & Hus & _).
  rewrite E in H. injection H as _ <-. rewrite Hus, Hu. simpl.
  apply String.eqb_neq in Hne. rewrite Hne. simpl.
  apply lookup_insert_eq.
Qed.

(** X5.  Whatever the manifest and however the run ends, [async_install]
    leaves the references of the other dependencies in [Uninstallers] as
    they were and removes nothing from [Installed_Dependencies]: the list
    it leaves starts with the list it found. *)
Theorem async_install_keeps_other_entries dep widget s :
  (forall k,
      k <> dep_name dep ->
      Uninstallers (config (snd (async_install G C dep widget s))) !! k
      = Uninstallers (config s) !! k) /\
  exists added,
    Installed_Dependencies (config (snd (async_install G C dep widget s)))
    = (Installed_Dependencies (config s) ++ added)%list.
Proof.
  pose proof (quiet_resolve_manifest G C dep s) as [Q1 _].
  assert (Hsame : forall s0 : State W,
             config s0 = config s ->
             (forall k, k <> dep_name dep ->
                        Uninstallers (config s0) !! k
                        = Uninstallers (config s) !! k) /\
             exists added,
               Installed_Dependencies (config s0)
               = (Installed_Dependencies (config s) ++ added)%list).
  { intros s0 ->. split; [reflexivity |]. exists []. now rewrite app_nil_r. }
  destruct (resolve_manifest G C dep s) as [[r | e] s1] eqn:Hr; simpl in Q1.
  - destruct (not_found r) eqn:Enf.
    + rewrite (async_install_not_found _ _ _ _ _ _ _ Hr Enf).
      destruct widget; apply Hsame; exact Q1.
    + destruct r as [| | text | m]; try discriminate.
      * unfold async_install. rewrite (bind_Ret _ _ _ _ _ Hr), Enf.
        apply Hsame. exact Q1.
      * rewrite (async_install_found _ _ _ _ _ _ _ Hr).
        pose proof (quiet_run_steps G C widget (Steps m) false s1) as [Q2 _].
        destruct (run_steps G C widget (Steps m) false s1) as [[h | e] s2];
          simpl in Q2.
        -- destruct (record_install_spec dep widget m h s2)
             as (s3 & E & _ & Hd & Hus & _).
           rewrite E. cbn [snd]. rewrite Hd, Hus, Q2, Q1. split.
           ++ intros k Hk.
              destruct (Py.truthy (Uninstaller m) || h); [| reflexivity].
              apply lookup_insert_ne. congruence.
           ++ destruct (mem (dep_name dep) (Installed_Dependencies (config s))).
              ** exists []. now rewrite app_nil_r.
              ** now exists [dep_name dep].
        -- apply Hsame. cbn [snd]. congruence.
  - unfold async_install. rewrite (bind_Raise _ _ _ _ _ Hr).
    apply Hsame. exact Q1.
Qed.

(** X6.  The entry opened in the download manager at the start of
    [async_install] is handed back for removal once when the run returns
    [True], and not at all otherwise: not when the manifest is not found,
    not when a handler raises. *)
Theorem async_install_download_entry dep widget s :
  exists evs,
    trace (snd (async_install G C dep widget s)) = (trace s ++ evs)%list /\
    length (List.filter is_download_entry_remove evs) =
      match fst (async_install G C dep widget s) with
      | Ret true => 1
      | _ => 0
      end.
Proof.
  assert (HP : forall e, is_download_entry_remove e = true ->
                         is_download_entry_remove e = true
                         \/ is_run_executable e = true) by (intros; now left).
  destruct (avoids_resolve_manifest _ dep HP s) as (e1 & Ht1 & Hp1).
  apply avoids_filter in Hp1.
  destruct (resolve_manifest G C dep s) as [[r | e] s1] eqn:Hr; simpl in Ht1.
  - destruct (not_found r) eqn:Enf.
    + rewrite (async_install_not_found _ _ _ _ _ _ _ Hr Enf).
      destruct widget; cbn [fst snd trace].
      * exists (e1 ++ [EvIdleAdd (WidgetSetInstalled false)])%list.
        split; [now rewrite Ht1, app_assoc |].
        now rewrite List.filter_app, Hp1.
      * exists e1. now rewrite Hp1.
    + destruct r as [| | text | m]; try discriminate.
      * unfold async_install. rewrite (bind_Ret _ _ _ _ _ Hr), Enf.
        exists e1. now rewrite Hp1.
      * rewrite (async_install_found _ _ _ _ _ _ _ Hr).
        destruct (avoids_run_steps_download_entry_remove widget (Steps m)
                    false s1) as (e2 & Ht2 & Hp2).
        apply avoids_filter in Hp2.
        destruct (run_steps G C widget (Steps m) false s1) as [[h | e] s2];
          simpl in Ht2.
        -- destruct (record_install_spec dep widget m h s2)
             as (s3 & E & _ & _ & _ & Ht3).
           rewrite E. cbn [fst snd]. rewrite Ht3, Ht2, Ht1.
           eexists. split; [rewrite <- !app_assoc; reflexivity |].
           rewrite !List.filter_app, Hp1, Hp2.
           destruct (mem (dep_name dep) (Installed_Dependencies (config s2)));
             destruct (Py.truthy (Uninstaller m) || h); destruct widget;
             reflexivity.
        -- cbn [fst snd]. exists (e1 ++ e2)%list.
           split; [now rewrite Ht2, Ht1, app_assoc |].
           now rewrite List.filter_app, Hp1, Hp2.
  - unfold async_install. rewrite (bind_Raise _ _ _ _ _ Hr).
    exists e1. now rewrite Hp1.
Qed.

End Executor.

(** * More on the handlers *)

Section Handlers.
Context {W : Type}.
Variable G : Globals.
Variable C : Collaborators W.

(** A loop of calls issues them in the order of the list and stops at the
    first that raises, whose exception it lets out. *)
Lemma for_in_calls {A} (ev : A -> Event) (f : A -> W -> Outcome unit * W)
    (xs : list A) (s : State W) :
  exists k,
    trace (snd (for_in xs tt (fun x _ => call (ev x) (f x)) s)) =
      (trace s ++ map ev (firstn k xs))%list /\
    ((fst (for_in xs tt (fun x _ => call (ev x) (f x)) s) = Ret tt /\
      k = length xs) \/
     (exists e,
         fst (for_in xs tt (fun x _ => call (ev x) (f x)) s) = Raise e /\
         1 <= k <= length xs)).
Proof.
  revert s. induction xs as [| x rest IH]; intros s.
  - exists 0. simpl. split; [now rewrite app_nil_r | now left].
  - cbn [for_in]. unfold bind, call at 1 3 5.
    destruct (f x (world s)) as [[[] | e] w1].
    + destruct (IH (mkState w1 (config s) (trace s ++ [ev x])%list))
        as (k & Ht & Hk).
      exists (S k). split.
      * rewrite Ht. cbn [firstn map trace]. now rewrite <- app_assoc.
      * destruct Hk as [[Hr ->] | (e & Hr & Hk)].
        -- left. now split.
        -- right. exists e. split; [exact Hr |]. cbn [length]. lia.
    + exists 1. split; [reflexivity |]. right. exists e.
      split; [reflexivity |]. cbn [length]. lia.
Qed.

Lemma remove_calls_app evs1 evs2 :
  remove_calls (evs1 ++ evs2) = (remove_calls evs1 ++ remove_calls evs2)%list.
Proof.
  induction evs1 as [| e rest IH]; [reflexivity |].
  destruct e; simpl; now rewrite ?IH.
Qed.

Lemma reg_add_calls_app evs1 evs2 :
  reg_add_calls (evs1 ++ evs2) =
  (reg_add_calls evs1 ++ reg_add_calls evs2)%list.
Proof.
  induction evs1 as [| e rest IH]; [reflexivity |].
  destruct e; simpl; now rewrite ?IH.
Qed.

(** ** Deleting DLLs *)

(** X7.  Provided [os.remove] raises nothing but [FileNotFoundError],
    [step_delete_sys32_dlls] returns [None] and has asked for the removal of
    every DLL of its list, in order, under the bottle's [system32]: a DLL
    that is missing does not keep the following ones from being removed. *)
Theorem step_delete_sys32_dlls_removes_all config_ dlls_ s :
  (forall p w,
      fst (os_remove C p w) = Ret tt \/
      fst (os_remove C p w) = Raise FileNotFoundError) ->
  exists evs,
    fst (step_delete_sys32_dlls G C config_ dlls_ s) = Ret None /\
    trace (snd (step_delete_sys32_dlls G C config_ dlls_ s))
      = (trace s ++ evs)%list /\
    remove_calls evs =
      map (fun dll_ =>
             Paths_bottles G ++ "/" ++ Name config_
               ++ "/drive_c/windows/system32/" ++ dll_) dlls_.
Proof.
  intros Hrm. unfold step_delete_sys32_dlls.
  match goal with
  | |- context [for_in dlls_ tt ?b] => set (body := b)
  end.
  assert (Hloop : forall s0, exists evs,
             for_in dlls_ tt body s0
             = (Ret tt, snd (for_in dlls_ tt body s0)) /\
             trace (snd (for_in dlls_ tt body s0)) = (trace s0 ++ evs)%list /\
             remove_calls evs =
               map (fun dll_ =>
                      Paths_bottles G ++ "/" ++ Name config_
                        ++ "/drive_c/windows/system32/" ++ dll_) dlls_).
  { clear s. induction dlls_ as [| d rest IH]; intros s0.
    - exists []. simpl. now rewrite app_nil_r.
    - cbn [for_in]. unfold bind at 1 2 3.
      assert (Hbody : exists evs1,
                 body d tt s0 = (Ret tt, snd (body d tt s0)) /\
                 trace (snd (body d tt s0)) = (trace s0 ++ evs1)%list /\
                 remove_calls evs1 =
                   [Paths_bottles G ++ "/" ++ Name config_
                      ++ "/drive_c/windows/system32/" ++ d]).
      { unfold body, try_except, bind, emit, call. cbn [world config trace].
        match goal with
        | |- context [os_remove C ?p ?w] =>
            destruct (Hrm p w) as [Hr | Hr];
            destruct (os_remove C p w) as [r w1]; simpl in Hr; subst r
        end; cbn [is_FileNotFoundError fst snd world config trace];
          eexists; (split; [reflexivity |]);
          (split; [rewrite <- !app_assoc; reflexivity | reflexivity]). }
      destruct Hbody as (evs1 & Hb & Ht1 & Hc1). rewrite Hb.
      destruct (IH (snd (body d tt s0))) as (evs2 & Hl & Ht2 & Hc2).
      exists (evs1 ++ evs2)%list. split; [exact Hl |]. split.
      + now rewrite Ht2, Ht1, app_assoc.
      + rewrite remove_calls_app, Hc1, Hc2. reflexivity. }
  destruct (Hloop s) as (evs & Hl & Ht & Hc).
  exists evs. unfold bind. rewrite Hl. cbn [fst snd]. now split.
Qed.

(** ** Installers *)

(** X8.  [step_install_exe_msi] runs an executable only when the download
    succeeded, and then exactly one: the file of the temp directory named by
    [rename] when the step has a non-empty one, by [file_name] otherwise,
    with the step's arguments and environment. *)
Theorem step_install_exe_msi_runs_the_download config_ step widget s b w1 :
  download C (url step) (file_name step) (rename step) (file_checksum step)
    (world s) = (Ret b, w1) ->
  exists evs,
    trace (snd (step_install_exe_msi G C config_ step widget s))
      = (trace s ++ evs)%list /\
    List.filter is_run_executable evs =
      if b then
        [EvRunExecutable
           (Paths_temp G ++ "/"
              ++ Py.fmt (if Py.truthy (rename step) then rename step
                         else file_name step))
           (arguments step) (environment step)]
      else [].
Proof.
  intros Hd. destruct b.
  - unfold step_install_exe_msi, call_download, call, bind,
      rename_or_file_name, ret.
    rewrite Hd. cbn [world config trace].
    match goal with
    | |- context [run_executable C ?c ?p ?a ?e ?w] =>
        destruct (run_executable C c p a e w) as [[[] | ex] w2]
    end; cbn [snd trace]; eexists;
      (split; [rewrite <- app_assoc; reflexivity | reflexivity]).
  - rewrite (step_install_exe_msi_download_fails _ _ _ _ _ _ _ Hd).
    cbn [snd trace]. eexists. split; [reflexivity |].
    now destruct widget.
Qed.

(** ** Uninstalling *)

Lemma chars_aux_not_empty cur need s :
  Forall (fun ch => ch <> "") (Py.chars_aux cur need s).
Proof.
  assert (Happ : forall (x : string) c, x ++ String c "" <> "").
  { intros x c. destruct x; discriminate. }
  revert cur need. induction s as [| c r IH]; intros cur need.
  - simpl. destruct cur; [constructor |].
    constructor; [discriminate | constructor].
  - cbn [Py.chars_aux]. destruct need as [| [| k]].
    + destruct (Py.utf8_length c) as [| [| k]];
        try (constructor; [discriminate | apply IH]); apply IH.
    + constructor; [apply Happ | apply IH].
    + apply IH.
Qed.

Lemma lstrip_all_space l : forallb Py.isspace l = true -> Py.lstrip l = [].
Proof.
  induction l as [| ch r IH]; [reflexivity |]. simpl.
  intros H. apply andb_true_iff in H as [Hc Hr]. rewrite Hc. now apply IH.
Qed.

Lemma lstrip_not_all_space l :
  forallb Py.isspace l = false ->
  exists ch r, Py.lstrip l = ch :: r /\ Py.isspace ch = false /\ In ch l.
Proof.
  induction l as [| ch r IH]; [discriminate |]. simpl.
  destruct (Py.isspace ch) eqn:Ec; simpl.
  - intros H. destruct (IH H) as (x & r' & E & Hx & Hin).
    exists x, r'. auto.
  - intros _. exists ch, r. auto.
Qed.

Lemma rstrip_head ch r :
  Py.isspace ch = false -> exists r', Py.rstrip (ch :: r) = ch :: r'.
Proof.
  intros Hc. cbn [Py.rstrip]. destruct (Py.rstrip r) as [| x r'].
  - rewrite Hc. now exists [].
  - now exists (x :: r').
Qed.

(** A string strips to the empty string exactly when it is white space. *)
Lemma strip_empty out : (Py.strip out =? "") = all_space out.
Proof.
  unfold Py.strip, all_space. destruct (forallb Py.isspace (Py.chars out)) eqn:E.
  - now rewrite (lstrip_all_space _ E).
  - destruct (lstrip_not_all_space _ E) as (ch & r & -> & Hc & Hin).
    destruct (rstrip_head ch r Hc) as (r' & ->).
    apply String.eqb_neq.
    pose proof (chars_aux_not_empty "" 0 out) as Hne.
    apply (proj1 (List.Forall_forall _ _)) with (x := ch) in Hne;
      [| exact Hin].
    destruct ch as [| c0 ch0]; [congruence |].
    destruct r'; discriminate.
Qed.

(** X9.  [step_uninstall] asks the runner for the uninstaller whose line
    matches the file name.  When the answer is empty or white space only,
    nothing is uninstalled and nothing is logged; otherwise the runner's
    uninstaller is called once, on the answer stripped of its surrounding
    white space. *)
Theorem step_uninstall_on_match config_ file_name_ s out w1 :
  let command :=
    "uninstaller --list | grep '" ++ file_name_ ++ "' | cut -f1 -d\|" in
  run_command C config_ command (world s) = (Ret out, w1) ->
  (all_space out = true ->
   step_uninstall C config_ file_name_ s =
   (Ret None, mkState w1 (config s) (trace s ++ [EvRunCommand command])%list))
  /\
  (all_space out = false ->
   trace (snd (step_uninstall C config_ file_name_ s)) =
     (trace s
      ++ [EvRunCommand command;
          EvLogInfo ("Uninstalling [" ++ file_name_ ++ "] from bottle: ["
                       ++ Name config_ ++ "].");
          EvRunUninstaller (Py.strip out)])%list).
Proof.
  intros command Hc.
  split; intros Hs; unfold step_uninstall; fold command;
    unfold bind at 1, call at 1; rewrite Hc, (strip_empty out), Hs;
    cbn [negb].
  - reflexivity.
  - unfold bind, emit, call. cbn [world config trace].
    match goal with
    | |- context [run_uninstaller C ?c ?u ?w] =>
        destruct (run_uninstaller C c u w) as [[[] | ex] w2]
    end; cbn [snd trace]; now rewrite <- !app_assoc.
Qed.

End Handlers.

Section Extraction.
Context {W : Type}.
Variable G : Globals.
Variable C : Collaborators W.

(** ** Cabinets *)

(** X10.  On a cabinet that is fetched from a validated URL,
    [step_cab_extract] extracts twice, under the file's name and under its
    name without extension.  A failed extraction marks the widget, when
    there is one, and stops nothing: the second extraction follows the first
    whatever it gave, and the handler returns [None]. *)
Theorem step_cab_extract_fetched step widget s u w1 w2 b1 w3 b2 w4 :
  let file_ := rename_or_file_name step in
  let path := Paths_temp G ++ "/" ++ Py.fmt file_ in
  let root := Some (Py.splitext_root (Py.fmt file_)) in
  url step = Some u ->
  validate_url C u (world s) = (Ret true, w1) ->
  download C (url step) (file_name step) (rename step) (file_checksum step)
    w1 = (Ret true, w2) ->
  CabExtract_run C path file_ w2 = (Ret b1, w3) ->
  CabExtract_run C path root w3 = (Ret b2, w4) ->
  step_cab_extract G C step widget s =
  (Ret None,
   mkState w4 (config s)
     (trace s
      ++ [EvValidateUrl u;
          EvDownload (url step) (file_name step) (rename step)
            (file_checksum step);
          EvCabExtract path file_]
      ++ (if b1 then [] else with_widget widget (EvIdleAdd WidgetSetErr))
      ++ [EvCabExtract path root]
      ++ (if b2 then [] else with_widget widget (EvIdleAdd WidgetSetErr)))%list).
Proof.
  intros file_ path root Hu Hv Hd H1 H2.
  unfold step_cab_extract, call_download, call_CabExtract, call, bind,
    subscript, if_widget, emit, ret, with_widget.
  rewrite Hu in Hd |- *. cbv beta iota. rewrite Hv. cbn [world config trace].
  rewrite Hd. cbn [world config trace].
  fold file_. fold path. rewrite H1.
  destruct b1, b2, widget; cbn [negb world config trace];
    fold root; rewrite H2; cbn [negb world config trace];
    now rewrite <- !app_assoc.
Qed.

(** X11.  [step_cab_extract] extracts nothing when the step has no url,
    which raises [KeyError] before any call; when its url is neither
    validated nor under [temp/]; and when the download of a validated URL
    fails.  In the last two cases it returns [None] and marks no error. *)
Theorem step_cab_extract_nothing_to_extract step widget s :
  (url step = None ->
   step_cab_extract G C step widget s = (Raise (KeyError "url"), s)) /\
  (forall u w1,
      url step = Some u ->
      validate_url C u (world s) = (Ret false, w1) ->
      Py.startswith "temp/" u = false ->
      step_cab_extract G C step widget s =
      (Ret None, mkState w1 (config s) (trace s ++ [EvValidateUrl u])%list)) /\
  (forall u w1 w2,
      url step = Some u ->
      validate_url C u (world s) = (Ret true, w1) ->
      download C (url step) (file_name step) (rename step)
        (file_checksum step) w1 = (Ret false, w2) ->
      step_cab_extract G C step widget s =
      (Ret None,
       mkState w2 (config s)
         (trace s
          ++ [EvValidateUrl u;
              EvDownload (url step) (file_name step) (rename step)
                (file_checksum step)])%list)).
Proof.
  split; [| split].
  - intros Hu. unfold step_cab_extract, bind, subscript. now rewrite Hu.
  - intros u w1 Hu Hv Hs.
    unfold step_cab_extract, call, bind, subscript, ret.
    rewrite Hu. cbv beta iota. rewrite Hv. now rewrite Hs.
  - intros u w1 w2 Hu Hv Hd.
    unfold step_cab_extract, call_download, call, bind, subscript, ret.
    rewrite Hu in Hd |- *. cbv beta iota. rewrite Hv.
    cbn [world config trace].
    rewrite Hd. cbn [world config trace]. now rewrite <- app_assoc.
Qed.

(** ** Archives *)

(** X12.  [step_archive_extract] extracts nothing when the download fails.
    When it succeeds, the archive is extracted into the directory of the
    temp directory named after the file without its extension, made anew:
    when that directory exists it is removed first, and only then. *)
Theorem step_archive_extract_fresh_directory step s :
  (forall w1,
      download C (url step) (file_name step) (rename step)
        (file_checksum step) (world s) = (Ret false, w1) ->
      step_archive_extract G C step s =
      (Ret None,
       mkState w1 (config s)
         (trace s
          ++ [EvDownload (url step) (file_name step) (rename step)
                (file_checksum step)])%list)) /\
  (forall w1 f w2 w3,
      let outdir := Paths_temp G ++ "/" ++ Py.splitext_root f in
      download C (url step) (file_name step) (rename step)
        (file_checksum step) (world s) = (Ret true, w1) ->
      rename_or_file_name step = Some f ->
      (if os_path_exists C outdir w1 then shutil_rmtree C outdir w1
       else (Ret tt, w1)) = (Ret tt, w2) ->
      os_makedirs C outdir w2 = (Ret tt, w3) ->
      trace (snd (step_archive_extract G C step s)) =
      (trace s
       ++ [EvDownload (url step) (file_name step) (rename step)
             (file_checksum step)]
       ++ (if os_path_exists C outdir w1 then [EvRmtree outdir] else [])
       ++ [EvMakedirs outdir;
           EvExtractArchive (Paths_temp G ++ "/" ++ f) outdir])%list).
Proof.
  split.
  - intros w1 Hd. unfold step_archive_extract, call_download, call, bind, ret.
    now rewrite Hd.
  - intros w1 f w2 w3 outdir Hd Hf Hrm Hmk.
    unfold step_archive_extract, call_download, call, bind, not_None, query,
      ret.
    rewrite Hd, Hf. cbn [world config trace]. fold outdir.
    destruct (os_path_exists C outdir w1); cbn [world config trace].
    + rewrite Hrm. cbn [world config trace]. rewrite Hmk.
      cbn [world config trace].
      match goal with
      | |- context [patoolib_extract_archive C ?a ?o ?w] =>
          destruct (patoolib_extract_archive C a o w) as [[[] | e] w4]
      end; cbn [snd trace]; now rewrite <- !app_assoc.
    + injection Hrm as <-. rewrite Hmk. cbn [world config trace].
      match goal with
      | |- context [patoolib_extract_archive C ?a ?o ?w] =>
          destruct (patoolib_extract_archive C a o w) as [[[] | e] w4]
      end; cbn [snd trace]; now rewrite <- !app_assoc.
Qed.

(** ** Fonts *)



(** ** DLLs *)

(** X14.  [FileNotFoundError] never leaves [step_copy_dll].  A step without
    url raises [KeyError] before any call, and one with a url but no file
    name raises [TypeError], neither of which the handler catches. *)
Theorem step_copy_dll_catches_missing_files config_ step s :
  fst (step_copy_dll G C config_ step s) <> Raise FileNotFoundError /\
  (url step = None ->
   step_copy_dll G C config_ step s = (Raise (KeyError "url"), s)) /\
  (url step <> None -> file_name step = None ->
   step_copy_dll G C config_ step s = (Raise TypeError, s)).
Proof.
  unfold step_copy_dll. destruct (url step) as [u |].
  - unfold subscript, query, bind at 1 2, ret at 1. split; [| split].
    + unfold try_except.
      match goal with
      | |- context [match ?b s with _ => _ end] =>
          destruct (b s) as [[v | e] s1]
      end; [discriminate |].
      destruct e; cbn [is_FileNotFoundError fst]; discriminate.
    + discriminate.
    + intros _ Hf. rewrite Hf. reflexivity.
  - split; [discriminate |]. split; [reflexivity |]. congruence.
Qed.

Lemma reg_add_calls_map {A} (k v d : A -> option string) kt xs :
  reg_add_calls (map (fun x => EvRegAdd (k x) (v x) (d x) kt) xs) =
  map (fun x => (k x, v x, d x)) xs.
Proof. induction xs as [| x rest IH]; simpl; now rewrite ?IH. Qed.

(** X15.  [step_override_dll] writes DLL overrides to the registry.  When
    the step's url is under [temp/], it writes one entry for each file that
    [glob] matched, in order, valued by the file's base name without
    extension; with no match it writes none and returns [None].  Otherwise
    it writes the single entry valued by the step's [dll]. *)
Theorem step_override_dll_entries config_ step s :
  let r := step_override_dll G C config_ step s in
  let matches :=
    glob C (Py.replace "temp/" (Paths_temp G ++ "/") (Py.fmt (url step))
              ++ "/" ++ Py.fmt (dll step)) (world s) in
  exists evs,
    trace (snd r) = (trace s ++ evs)%list /\
    (Py.truthy (url step) && Py.startswith "temp/" (Py.fmt (url step)) = true ->
     exists k,
       reg_add_calls evs =
         map (fun dll_ =>
                (Some DllOverrides,
                 Some (Py.splitext_root (Py.basename dll_)), type_ step))
             (firstn k matches) /\
       ((fst r = Ret None /\ k = length matches) \/
        (exists e, fst r = Raise e /\ 1 <= k <= length matches))) /\
    (Py.truthy (url step) && Py.startswith "temp/" (Py.fmt (url step)) = false ->
     reg_add_calls evs = [(Some DllOverrides, dll step, type_ step)]).
Proof.
  intros r matches.
  pose (ev := fun dll_ =>
          EvRegAdd (Some DllOverrides)
            (Some (Py.splitext_root (Py.basename dll_))) (type_ step)
            KeyTypeDefault).
  pose (f := fun dll_ =>
          reg_add C config_ (Some DllOverrides)
            (Some (Py.splitext_root (Py.basename dll_))) (type_ step)
            KeyTypeDefault).
  assert (Er : r =
               if Py.truthy (url step)
                  && Py.startswith "temp/" (Py.fmt (url step))
               then
                 match for_in matches tt (fun x _ => call (ev x) (f x)) s with
                 | (Ret _, s1) => (Ret None, s1)
                 | (Raise e, s1) => (Raise e, s1)
                 end
               else
                 match reg_add C config_ (Some DllOverrides) (dll step)
                         (type_ step) KeyTypeDefault (world s) with
                 | (Ret _, w1) =>
                     (Ret None,
                      mkState w1 (config s)
                        (trace s ++ [EvRegAdd (Some DllOverrides) (dll step)
                                       (type_ step) KeyTypeDefault])%list)
                 | (Raise e, w1) =>
                     (Raise e,
                      mkState w1 (config s)
                        (trace s ++ [EvRegAdd (Some DllOverrides) (dll step)
                                       (type_ step) KeyTypeDefault])%list)
                 end).
  { subst r. unfold step_override_dll.
    destruct (Py.truthy (url step)
              && Py.startswith "temp/" (Py.fmt (url step))).
    - reflexivity.
    - unfold call_reg_add, call, bind, ret.
      now destruct (reg_add C config_ (Some DllOverrides) (dll step)
                      (type_ step) KeyTypeDefault (world s)) as [[[] | e] w1]. }
  clearbody r. subst r.
  destruct (Py.truthy (url step) && Py.startswith "temp/" (Py.fmt (url step))).
  - destruct (for_in_calls ev f matches s) as (k & Ht & Hk).
    destruct (for_in matches tt (fun x _ => call (ev x) (f x)) s)
      as [[[] | e] s1]; cbn [fst snd] in *.
    + eexists. split; [exact Ht |]. split; [| discriminate].
      intros _. exists k.
      split; [apply (reg_add_calls_map (fun _ => Some DllOverrides)) |].
      destruct Hk as [[_ ->] | (e & He & _)]; [| discriminate]. now left.
    + eexists. split; [exact Ht |]. split; [| discriminate].
      intros _. exists k.
      split; [apply (reg_add_calls_map (fun _ => Some DllOverrides)) |].
      destruct Hk as [[He _] | (e' & He & Hk)]; [discriminate |].
      right. now exists e.
  - destruct (reg_add C config_ (Some DllOverrides) (dll step) (type_ step)
                KeyTypeDefault (world s)) as [[[] | e] w1];
      cbn [snd trace]; eexists; (split; [reflexivity |]);
      (split; [discriminate | reflexivity]).
Qed.

End Extraction.

Section Runs.
Context {W : Type}.
Variable G : Globals.
Variable C : Collaborators W.


Lemma avoids_put_config P c : avoids P (put_config (W := W) c).
Proof. intros s. exists []. simpl. now rewrite app_nil_r. Qed.

Lemma avoids_record_install P dep widget m h :
  (forall e, is_record e = true \/ is_download_entry_remove e = true ->
             P e = false) ->
  avoids P (record_install (W := W) dep widget m h).
Proof.
  intros HP.
  unfold record_install, update_config_Installed_Dependencies,
    update_config_Uninstallers.
  repeat first
    [ progress intros
    | apply avoids_bind
    | apply avoids_if_widget
    | apply avoids_emit; apply HP; (now left) || (now right)
    | apply avoids_ret
    | apply avoids_get_config
    | apply avoids_put_config
    | match goal with
      | |- avoids _ (if ?b then _ else _) => destruct b
      | |- avoids _ (match ?o with _ => _ end) => destruct o
      end ].
Qed.

(** ** Executables *)

Lemma avoids_run_step_run_executable widget step h :
  in_actions step ["install_exe"; "install_msi"] = false ->
  avoids is_run_executable (run_step G C widget step h).
Proof.
  intros H. unfold run_step. rewrite H. cbv beta iota.
  unfold step_delete_sys32_dlls, step_uninstall, step_cab_extract,
    step_archive_extract, step_install_fonts, step_copy_dll,
    step_override_dll, step_set_register_key, step_register_font,
    call_download, call_CabExtract, call_copyfile, call_reg_add.
  avoids_tac.
Qed.

(** X16.  Executables are run for install_exe and install_msi steps only:
    when the resolved manifest has no such step, [async_install] runs none,
    however it ends. *)
Theorem async_install_runs_no_executable dep widget s m s1 :
  resolve_manifest G C dep s = (Ret (RManifest m), s1) ->
  forallb (fun step => negb (in_actions step ["install_exe"; "install_msi"]))
    (Steps m) = true ->
  exists evs,
    trace (snd (async_install G C dep widget s)) = (trace s ++ evs)%list /\
    List.filter is_run_executable evs = [].
Proof.
  intros Hm Hs.
  assert (HP : forall e, is_run_executable e = true ->
                         is_download_entry_remove e = true
                         \/ is_run_executable e = true) by (intros; now right).
  destruct (avoids_resolve_manifest G C _ dep HP s) as (e1 & Ht1 & Hp1).
  rewrite Hm in Ht1. cbn [snd] in Ht1.
  assert (Hloop : forall steps h,
             forallb (fun step =>
                        negb (in_actions step ["install_exe"; "install_msi"]))
               steps = true ->
             avoids is_run_executable (run_steps G C widget steps h)).
  { unfold run_steps. induction steps as [| step rest IH]; intros h H.
    - apply avoids_ret.
    - simpl in H. apply andb_true_iff in H as [Hstep Hrest].
      apply negb_true_iff in Hstep. cbn [for_in]. apply avoids_bind.
      + now apply avoids_run_step_run_executable.
      + intros a. now apply IH. }
  destruct (Hloop (Steps m) false Hs s1) as (e2 & Ht2 & Hp2).
  rewrite (async_install_found _ _ _ _ _ _ _ Hm).
  destruct (run_steps G C widget (Steps m) false s1) as [[h | e] s2];
    cbn [snd] in Ht2.
  - assert (Hrec : forall e, is_record e = true
                             \/ is_download_entry_remove e = true ->
                             is_run_executable e = false).
    { intros e [He | He]; destruct e; try reflexivity; discriminate. }
    destruct (avoids_record_install _ dep widget m h Hrec s2)
      as (e3 & Ht3 & Hp3).
    exists (e1 ++ e2 ++ e3)%list. split.
    + now rewrite Ht3, Ht2, Ht1, <- !app_assoc.
    + apply avoids_filter. now rewrite !forallb_app, Hp1, Hp2, Hp3.
  - exists (e1 ++ e2)%list. split.
    + cbn [snd]. now rewrite Ht2, Ht1, <- app_assoc.
    + apply avoids_filter. now rewrite forallb_app, Hp1, Hp2.
Qed.

(** ** The snapshot *)




(** ** Installing again *)

Lemma record_install_config dep widget m h (s : State W) :
  config (snd (record_install dep widget m h s)) =
  mkBottleConfig (Name (config s)) (Versioning (config s))
    (if mem (dep_name dep) (Installed_Dependencies (config s))
     then Installed_Dependencies (config s)
     else (Installed_Dependencies (config s) ++ [dep_name dep])%list)
    (if Py.truthy (Uninstaller m) || h
     then <[dep_name dep :=
              if h then NO_UNINSTALLER else Py.fmt (Uninstaller m)]>
            (Uninstallers (config s))
     else Uninstallers (config s)).
Proof.
  destruct s as [w c t]. destruct c as [n v deps us].
  unfold record_install, update_config_Installed_Dependencies,
    update_config_Uninstallers, if_widget, bind, get_config, put_config,
    emit, ret. simpl.
  destruct (mem (dep_name dep) deps) eqn:Em; destruct deps as [| d ds];
    destruct (Uninstaller m) as [u |]; simpl;
    try destruct (u =? ""); destruct h; destruct widget; reflexivity.
Qed.

(** The configuration that a returning run over the manifest [m] leaves. *)
Lemma async_install_config dep widget s m s1 b s' :
  resolve_manifest G C dep s = (Ret (RManifest m), s1) ->
  async_install G C dep widget s = (Ret b, s') ->
  let h := existsb no_uninstaller_step (Steps m) in
  config s' =
  mkBottleConfig (Name (config s)) (Versioning (config s))
    (if mem (dep_name dep) (Installed_Dependencies (config s))
     then Installed_Dependencies (config s)
     else (Installed_Dependencies (config s) ++ [dep_name dep])%list)
    (if Py.truthy (Uninstaller m) || h
     then <[dep_name dep :=
              if h then NO_UNINSTALLER else Py.fmt (Uninstaller m)]>
            (Uninstallers (config s))
     else Uninstallers (config s)).
Proof.
  intros Hm H h. rewrite (async_install_found _ _ _ _ _ _ _ Hm) in H.
  pose proof (quiet_resolve_manifest G C dep s) as [Q1 _].
  rewrite Hm in Q1. cbn [snd] in Q1.
  pose proof (quiet_run_steps G C widget (Steps m) false s1) as [Q2 _].
  destruct (run_steps G C widget (Steps m) false s1) as [[h' | e] s2] eqn:Er;
    [| discriminate].
  cbn [snd] in Q2. apply run_steps_flag in Er. simpl in Er. subst h'.
  pose proof (record_install_config dep widget m h s2) as Hc.
  fold h in H. rewrite H in Hc. cbn [snd] in Hc.
  now rewrite Hc, Q2, Q1.
Qed.

(** X18.  Installing a dependency again changes nothing in the
    configuration: when two runs of [async_install] in sequence resolve the
    same manifest and return, the second leaves [Installed_Dependencies],
    [Uninstallers] and the rest of the configuration as the first left
    them. *)
Theorem async_install_again dep widget widget' s m s1 b s' s1' b' s'' :
  resolve_manifest G C dep s = (Ret (RManifest m), s1) ->
  async_install G C dep widget s = (Ret b, s') ->
  resolve_manifest G C dep s' = (Ret (RManifest m), s1') ->
  async_install G C dep widget' s' = (Ret b', s'') ->
  config s'' = config s'.
Proof.
  intros Hm1 H1 Hm2 H2.
  pose proof (async_install_config _ _ _ _ _ _ _ Hm1 H1) as E1.
  pose proof (async_install_config _ _ _ _ _ _ _ Hm2 H2) as E2.
  cbv zeta in E1, E2. rewrite E2.
  assert (Hin : mem (dep_name dep) (Installed_Dependencies (config s')) = true).
  { rewrite E1. cbn [Installed_Dependencies].
    destruct (mem (dep_name dep) (Installed_Dependencies (config s))) eqn:Em;
      [exact Em |].
    apply mem_In, in_or_app. right. now left. }
  rewrite Hin, E1.
  cbn [Name Versioning Installed_Dependencies Uninstallers]. f_equal.
  destruct (Py.truthy (Uninstaller m)
            || existsb no_uninstaller_step (Steps m)); [| reflexivity].
  apply insert_insert_eq.
Qed.

(** ** A manifest fetched *)

(** X19.  With a connection, a body that is fetched and a parser that
    returns, [get_dependency] without [plain] returns the parsed manifest,
    or [None] for an empty document, after one request, to the file named
    after the dependency under its category in the repository, and no
    log. *)
Theorem get_dependency_parsed n c s w1 body w2 doc :
  check_connection C (world s) = (true, w1) ->
  urlopen_read C
    (BottlesRepositories_dependencies G ++ "/" ++ c ++ "/" ++ n ++ ".yml") w1
    = (Ret body, w2) ->
  yaml_safe_load C body = Ret doc ->
  get_dependency G C n c false s =
  (Ret (match doc with Some m => RManifest m | None => RNone end),
   mkState w2 (config s)
     (trace s
      ++ [EvCheckConnection;
          EvUrlopen (BottlesRepositories_dependencies G ++ "/" ++ c ++ "/"
                       ++ n ++ ".yml")])%list).
Proof.
  intros Hc Hu Hy. rewrite (get_dependency_online _ _ _ _ _ _ _ Hc).
  unfold try_except, bind, call, lift, ret, manifest_url.
  cbn [world config trace]. rewrite Hu, Hy.
  now rewrite <- app_assoc.
Qed.

End Runs.

(** * More runs on scripted collaborators *)

(** X1, an instance: no network. *)
Lemma fetch_catalog_empty_on_failure_witness :
  check_connection (scripted offline) (world (start fresh_bottle))
    = (false, tt) /\
  fetch_catalog index_url (scripted offline) parse_two_entries
    (start fresh_bottle)
  = (Ret ∅, mkState tt fresh_bottle [EvCheckConnection]).
Proof.
  assert (H1 : check_connection (scripted offline) (world (start fresh_bottle))
               = (false, tt)) by reflexivity.
  split; [exact H1 |].
  exact (proj1 (fetch_catalog_empty_on_failure index_url (scripted offline)
                  parse_two_entries (start fresh_bottle)) tt H1).
Defined.

(** X2, an instance: an index of two dependencies. *)
Lemma fetch_catalog_copies_index_witness :
  check_connection fine (world (start fresh_bottle)) = (true, tt) /\
  urlopen_read fine index_url tt = (Ret "Steps: []", tt) /\
  parse_two_entries "Steps: []" = Ret (Some two_entries) /\
  fst (fetch_catalog index_url fine parse_two_entries (start fresh_bottle))
    = Ret two_entries.
Proof.
  assert (H1 : check_connection fine (world (start fresh_bottle)) = (true, tt))
    by reflexivity.
  assert (H2 : urlopen_read fine index_url tt = (Ret "Steps: []", tt))
    by reflexivity.
  assert (H3 : parse_two_entries "Steps: []" = Ret (Some two_entries))
    by reflexivity.
  split; [exact H1 |]. split; [exact H2 |]. split; [exact H3 |].
  exact (fetch_catalog_copies_index index_url fine parse_two_entries
           (start fresh_bottle) tt "Steps: []" tt (Some two_entries)
           H1 H2 H3).
Defined.

(** X3, an instance: a misspelt action between two others. *)
Lemma run_steps_unknown_actions_witness :
  forallb (fun step => negb (in_actions step known_actions))
    [misspelt_step; empty_step "cabextract"] = true /\
  run_steps test_globals fine (Some GtkWidget)
    [misspelt_step; empty_step "cabextract"] false (start fresh_bottle)
  = (Ret false, start fresh_bottle).
Proof.
  assert (H1 : forallb (fun step => negb (in_actions step known_actions))
                 [misspelt_step; empty_step "cabextract"] = true)
    by reflexivity.
  split; [exact H1 |].
  exact (run_steps_unknown_actions test_globals fine (Some GtkWidget) _ false
           (start fresh_bottle) H1).
Defined.

(** X4, an instance: an installer with its uninstaller. *)
Lemma async_install_records_declared_uninstaller_witness :
  resolved (all_fine exe_with_uninstaller)
    = (Ret (RManifest exe_with_uninstaller),
       snd (resolved (all_fine exe_with_uninstaller))) /\
  Uninstaller exe_with_uninstaller = Some "Setup" /\
  "Setup" <> "" /\
  existsb no_uninstaller_step (Steps exe_with_uninstaller) = false /\
  run (all_fine exe_with_uninstaller) None
    = (Ret true, snd (run (all_fine exe_with_uninstaller) None)) /\
  Uninstallers (config (snd (run (all_fine exe_with_uninstaller) None)))
    !! "vcredist2019" = Some "Setup".
Proof.
  assert (H1 : resolved (all_fine exe_with_uninstaller)
               = (Ret (RManifest exe_with_uninstaller),
                  snd (resolved (all_fine exe_with_uninstaller))))
    by (vm_compute; reflexivity).
  assert (H2 : Uninstaller exe_with_uninstaller = Some "Setup")
    by reflexivity.
  assert (H3 : "Setup" <> "") by discriminate.
  assert (H4 : existsb no_uninstaller_step (Steps exe_with_uninstaller)
               = false) by reflexivity.
  assert (H5 : run (all_fine exe_with_uninstaller) None
               = (Ret true, snd (run (all_fine exe_with_uninstaller) None)))
    by (vm_compute; reflexivity).
  split; [exact H1 |]. split; [exact H2 |]. split; [exact H3 |].
  split; [exact H4 |]. split; [exact H5 |].
  exact (async_install_records_declared_uninstaller test_globals
           (scripted (all_fine exe_with_uninstaller)) vcredist None
           (start fresh_bottle) exe_with_uninstaller _ "Setup" true _
           H1 H2 H3 H4 H5).
Defined.

(** X7, an instance: of two DLLs the first is there, the second is not. *)
Lemma step_delete_sys32_dlls_removes_all_witness :
  (forall p w,
      fst (os_remove (scripted one_dll_present) p w) = Ret tt \/
      fst (os_remove (scripted one_dll_present) p w) = Raise FileNotFoundError)
  /\
  fst (step_delete_sys32_dlls test_globals (scripted one_dll_present)
         fresh_bottle ["b.dll"; "a.dll"] (start fresh_bottle)) = Ret None.
Proof.
  assert (H1 : forall p w,
             fst (os_remove (scripted one_dll_present) p w) = Ret tt \/
             fst (os_remove (scripted one_dll_present) p w)
             = Raise FileNotFoundError).
  { intros p w. cbn [os_remove scripted]. unfold file_must_exist.
    destruct (existsb (String.eqb p) (files one_dll_present)); auto. }
  split; [exact H1 |].
  destruct (step_delete_sys32_dlls_removes_all test_globals
              (scripted one_dll_present) fresh_bottle ["b.dll"; "a.dll"]
              (start fresh_bottle) H1) as (evs & Hr & _).
  exact Hr.
Defined.

(** X8, an instance: the installer is renamed after its download. *)
Lemma step_install_exe_msi_runs_the_download_witness :
  download fine (url renamed_exe) (file_name renamed_exe) (rename renamed_exe)
    (file_checksum renamed_exe) (world (start fresh_bottle)) = (Ret true, tt)
  /\
  List.filter is_run_executable
    (trace (snd (step_install_exe_msi test_globals fine fresh_bottle
                   renamed_exe None (start fresh_bottle))))
  = [EvRunExecutable "/tmp/bottles/vc.exe" (Some "/q") None].
Proof.
  assert (H1 : download fine (url renamed_exe) (file_name renamed_exe)
                 (rename renamed_exe) (file_checksum renamed_exe)
                 (world (start fresh_bottle)) = (Ret true, tt))
    by reflexivity.
  split; [exact H1 |].
  destruct (step_install_exe_msi_runs_the_download test_globals fine
              fresh_bottle renamed_exe None (start fresh_bottle) true tt H1)
    as (evs & Ht & Hf).
  rewrite Ht. exact Hf.
Defined.

(** X10, an instance: both extractions of a fetched cabinet fail. *)
Lemma step_cab_extract_fetched_witness :
  url fetched_cab = Some "https://host/a.cab" /\
  validate_url (scripted (mkScenario true (Ret None) true true false []))
    "https://host/a.cab" tt = (Ret true, tt) /\
  fst (step_cab_extract test_globals
         (scripted (mkScenario true (Ret None) true true false []))
         fetched_cab None (start fresh_bottle)) = Ret None.
Proof.
  assert (H1 : url fetched_cab = Some "https://host/a.cab") by reflexivity.
  assert (H2 : validate_url
                 (scripted (mkScenario true (Ret None) true true false []))
                 "https://host/a.cab" tt = (Ret true, tt)) by reflexivity.
  split; [exact H1 |]. split; [exact H2 |].
  exact (f_equal fst
           (step_cab_extract_fetched test_globals
              (scripted (mkScenario true (Ret None) true true false []))
              fetched_cab None (start fresh_bottle) "https://host/a.cab"
              tt tt false tt false tt H1 H2 eq_refl eq_refl eq_refl)).
Defined.

(** X11, an instance: the step has no url. *)
Lemma step_cab_extract_nothing_to_extract_witness :
  url (empty_step "cab_extract") = None /\
  step_cab_extract test_globals fine (empty_step "cab_extract") None
    (start fresh_bottle)
  = (Raise (KeyError "url"), start fresh_bottle).
Proof.
  assert (H1 : url (empty_step "cab_extract") = None) by reflexivity.
  split; [exact H1 |].
  exact (proj1 (step_cab_extract_nothing_to_extract test_globals fine
                  (empty_step "cab_extract") None (start fresh_bottle)) H1).
Defined.

(** X12, an instance: the download of the archive fails. *)
Lemma step_archive_extract_fresh_directory_witness :
  download (scripted (downloads_fail zip_with_uninstaller)) (url pack_zip)
    (file_name pack_zip) (rename pack_zip) (file_checksum pack_zip)
    (world (start fresh_bottle)) = (Ret false, tt) /\
  fst (step_archive_extract test_globals
         (scripted (downloads_fail zip_with_uninstaller)) pack_zip
         (start fresh_bottle)) = Ret None.
Proof.
  assert (H1 : download (scripted (downloads_fail zip_with_uninstaller))
                 (url pack_zip) (file_name pack_zip) (rename pack_zip)
                 (file_checksum pack_zip) (world (start fresh_bottle))
               = (Ret false, tt)) by reflexivity.
  split; [exact H1 |].
  exact (f_equal fst
           (proj1 (step_archive_extract_fresh_directory test_globals
                     (scripted (downloads_fail zip_with_uninstaller))
                     pack_zip (start fresh_bottle)) tt H1)).
Defined.


(** X14, an instance: the step has no url. *)
Lemma step_copy_dll_catches_missing_files_witness :
  url (empty_step "copy_dll") = None /\
  step_copy_dll test_globals fine fresh_bottle (empty_step "copy_dll")
    (start fresh_bottle)
  = (Raise (KeyError "url"), start fresh_bottle).
Proof.
  assert (H1 : url (empty_step "copy_dll") = None) by reflexivity.
  split; [exact H1 |].
  exact (proj1 (proj2 (step_copy_dll_catches_missing_files test_globals fine
                         fresh_bottle (empty_step "copy_dll")
                         (start fresh_bottle))) H1).
Defined.

(** X16, an instance: a cabinet and a registry key. *)
Lemma async_install_runs_no_executable_witness :
  resolved (staged_cab_extracts cab_then_key)
    = (Ret (RManifest cab_then_key),
       snd (resolved (staged_cab_extracts cab_then_key))) /\
  forallb (fun step => negb (in_actions step ["install_exe"; "install_msi"]))
    (Steps cab_then_key) = true /\
  exists evs,
    trace (snd (run (staged_cab_extracts cab_then_key) None))
      = (trace (start fresh_bottle) ++ evs)%list /\
    List.filter is_run_executable evs = [].
Proof.
  assert (H1 : resolved (staged_cab_extracts cab_then_key)
               = (Ret (RManifest cab_then_key),
                  snd (resolved (staged_cab_extracts cab_then_key))))
    by (vm_compute; reflexivity).
  assert (H2 : forallb
                 (fun step =>
                    negb (in_actions step ["install_exe"; "install_msi"]))
                 (Steps cab_then_key) = true) by reflexivity.
  split; [exact H1 |]. split; [exact H2 |].
  exact (async_install_runs_no_executable test_globals
           (scripted (staged_cab_extracts cab_then_key)) vcredist None
           (start fresh_bottle) cab_then_key _ H1 H2).
Defined.


(** X18, an instance: the same installer twice. *)
Lemma async_install_again_witness :
  resolved (all_fine exe_with_uninstaller)
    = (Ret (RManifest exe_with_uninstaller),
       snd (resolved (all_fine exe_with_uninstaller))) /\
  run (all_fine exe_with_uninstaller) None
    = (Ret true, snd (run (all_fine exe_with_uninstaller) None)) /\
  resolve_manifest test_globals fine vcredist
    (snd (run (all_fine exe_with_uninstaller) None))
    = (Ret (RManifest exe_with_uninstaller),
       snd (resolve_manifest test_globals fine vcredist
              (snd (run (all_fine exe_with_uninstaller) None)))) /\
  async_install test_globals fine vcredist None
    (snd (run (all_fine exe_with_uninstaller) None))
    = (Ret true,
       snd (async_install test_globals fine vcredist None
              (snd (run (all_fine exe_with_uninstaller) None)))) /\
  config (snd (async_install test_globals fine vcredist None
                 (snd (run (all_fine exe_with_uninstaller) None))))
    = config (snd (run (all_fine exe_with_uninstaller) None)).
Proof.
  assert (H1 : resolved (all_fine exe_with_uninstaller)
               = (Ret (RManifest exe_with_uninstaller),
                  snd (resolved (all_fine exe_with_uninstaller))))
    by (vm_compute; reflexivity).
  assert (H2 : run (all_fine exe_with_uninstaller) None
               = (Ret true, snd (run (all_fine exe_with_uninstaller) None)))
    by (vm_compute; reflexivity).
  assert (H3 : resolve_manifest test_globals fine vcredist
                 (snd (run (all_fine exe_with_uninstaller) None))
               = (Ret (RManifest exe_with_uninstaller),
                  snd (resolve_manifest test_globals fine vcredist
                         (snd (run (all_fine exe_with_uninstaller) None)))))
    by (vm_compute; reflexivity).
  assert (H4 : async_install test_globals fine vcredist None
                 (snd (run (all_fine exe_with_uninstaller) None))
               = (Ret true,
                  snd (async_install test_globals fine vcredist None
                         (snd (run (all_fine exe_with_uninstaller) None)))))
    by (vm_compute; reflexivity).
  split; [exact H1 |]. split; [exact H2 |]. split; [exact H3 |].
  split; [exact H4 |].
  exact (async_install_again test_globals fine vcredist None None
           (start fresh_bottle) exe_with_uninstaller _ true _ _ true _
           H1 H2 H3 H4).
Defined.

(** X19, an instance: the manifest of [vcredist]. *)
Lemma get_dependency_parsed_witness :
  check_connection fine (world (start fresh_bottle)) = (true, tt) /\
  urlopen_read fine
    (BottlesRepositories_dependencies test_globals ++ "/" ++ "Essentials"
       ++ "/" ++ "vcredist2019" ++ ".yml") tt = (Ret "Steps: []", tt) /\
  yaml_safe_load fine "Steps: []" = Ret (Some exe_with_uninstaller) /\
  fst (get_dependency test_globals fine "vcredist2019" "Essentials" false
         (start fresh_bottle)) = Ret (RManifest exe_with_uninstaller).
Proof.
  assert (H1 : check_connection fine (world (start fresh_bottle)) = (true, tt))
    by reflexivity.
  assert (H2 : urlopen_read fine
                 (BottlesRepositories_dependencies test_globals ++ "/"
                    ++ "Essentials" ++ "/" ++ "vcredist2019" ++ ".yml") tt
               = (Ret "Steps: []", tt)) by reflexivity.
  assert (H3 : yaml_safe_load fine "Steps: []"
               = Ret (Some exe_with_uninstaller)) by reflexivity.
  split; [exact H1 |]. split; [exact H2 |]. split; [exact H3 |].
  exact (f_equal fst
           (get_dependency_parsed test_globals fine "vcredist2019"
              "Essentials" (start fresh_bottle) tt "Steps: []" tt
              (Some exe_with_uninstaller) H1 H2 H3)).
Defined.

(** X15, an instance: two DLLs are staged. *)
Lemma step_override_dll_entries_witness :
  Py.truthy (url override_staged)
  && Py.startswith "temp/" (Py.fmt (url override_staged)) = true /\
  reg_add_calls
    (trace (snd (step_override_dll test_globals
                   (scripted (staged_dlls exe_then_key)) fresh_bottle
                   override_staged (start fresh_bottle))))
  = [(Some DllOverrides, Some "a", Some "native");
     (Some DllOverrides, Some "b", Some "native")].
Proof.
  assert (H1 : Py.truthy (url override_staged)
               && Py.startswith "temp/" (Py.fmt (url override_staged)) = true)
    by reflexivity.
  split; [exact H1 |].
  destruct (step_override_dll_entries test_globals
              (scripted (staged_dlls exe_then_key)) fresh_bottle
              override_staged (start fresh_bottle)) as (evs & Ht & Hs & _).
  destruct (Hs H1) as (k & Hk & [[_ Hlen] | (e & He & _)]).
  - rewrite Ht. cbn [start trace app]. rewrite Hk, Hlen.
    vm_compute. reflexivity.
  - vm_compute in He. discriminate.
Defined.

(** * The loop and its handlers *)

Section Dispatch.
Context {W : Type}.
Variable G : Globals.
Variable C : Collaborators W.




End Dispatch.

Section Revised.
Context {W : Type}.
Variable G : Globals.
Variable C : Collaborators W.




End Revised.




(** X5, an instance: in a bottle that holds the uninstaller of another
    dependency, that reference is there after the install. *)
Lemma async_install_keeps_other_entries_witness :
  "dotnet48" <> dep_name vcredist /\
  Uninstallers bottle_with_dotnet !! "dotnet48" = Some "Dotnet" /\
  Uninstallers
    (config (snd (async_install test_globals
                    (scripted (all_fine zip_with_uninstaller)) vcredist None
                    (start bottle_with_dotnet))))
    !! "dotnet48" = Some "Dotnet" /\
  Uninstallers
    (config (snd (async_install test_globals
                    (scripted (all_fine zip_with_uninstaller)) vcredist None
                    (start bottle_with_dotnet))))
    !! "vcredist2019" = Some NO_UNINSTALLER.
Proof.
  assert (H1 : "dotnet48" <> dep_name vcredist) by discriminate.
  assert (H2 : Uninstallers bottle_with_dotnet !! "dotnet48" = Some "Dotnet")
    by (vm_compute; reflexivity).
  split; [exact H1 |]. split; [exact H2 |]. split.
  - rewrite (proj1 (async_install_keeps_other_entries test_globals
                      (scripted (all_fine zip_with_uninstaller)) vcredist None
                      (start bottle_with_dotnet)) "dotnet48" H1).
    exact H2.
  - vm_compute. reflexivity.
Defined.

(** X9, instances: a listing of white space only, here a no-break space and
    a line feed, uninstalls nothing; a listing that holds an identifier has
    it uninstalled, without the white space around it. *)
Lemma step_uninstall_on_match_witness :
  (run_command (listing nbsp_newline) fresh_bottle
     ("uninstaller --list | grep '" ++ "Setup" ++ "' | cut -f1 -d\|")
     (world (start fresh_bottle)) = (Ret nbsp_newline, tt) /\
   all_space nbsp_newline = true /\
   step_uninstall (listing nbsp_newline) fresh_bottle "Setup"
     (start fresh_bottle)
   = (Ret None,
      mkState tt fresh_bottle
        [EvRunCommand
           ("uninstaller --list | grep '" ++ "Setup" ++ "' | cut -f1 -d\|")]))
  /\
  (run_command (listing " {4f7a-11} 
") fresh_bottle
     ("uninstaller --list | grep '" ++ "Setup" ++ "' | cut -f1 -d\|")
     (world (start fresh_bottle)) = (Ret " {4f7a-11} 
", tt) /\
   all_space " {4f7a-11} 
" = false /\
   trace (snd (step_uninstall (listing " {4f7a-11} 
") fresh_bottle "Setup" (start fresh_bottle)))
   = [EvRunCommand
        ("uninstaller --list | grep '" ++ "Setup" ++ "' | cut -f1 -d\|");
      EvLogInfo "Uninstalling [Setup] from bottle: [test].";
      EvRunUninstaller "{4f7a-11}"]).
Proof.
  split.
  - assert (H1 : run_command (listing nbsp_newline) fresh_bottle
                   ("uninstaller --list | grep '" ++ "Setup"
                      ++ "' | cut -f1 -d\|")
                   (world (start fresh_bottle)) = (Ret nbsp_newline, tt))
      by reflexivity.
    assert (H2 : all_space nbsp_newline = true) by reflexivity.
    split; [exact H1 |]. split; [exact H2 |].
    exact (proj1 (step_uninstall_on_match (listing nbsp_newline) fresh_bottle
                    "Setup" (start fresh_bottle) nbsp_newline tt H1) H2).
  - assert (H1 : run_command (listing " {4f7a-11} 
") fresh_bottle
                   ("uninstaller --list | grep '" ++ "Setup"
                      ++ "' | cut -f1 -d\|")
                   (world (start fresh_bottle)) = (Ret " {4f7a-11} 
", tt))
      by reflexivity.
    assert (H2 : all_space " {4f7a-11} 
" = false) by reflexivity.
    split; [exact H1 |]. split; [exact H2 |].
    rewrite (proj2 (step_uninstall_on_match (listing " {4f7a-11} 
") fresh_bottle "Setup" (start fresh_bottle) " {4f7a-11} 
" tt H1) H2).
    vm_compute. reflexivity.
Defined.
